(** * bhasha-sethu front end: request orchestration and rendering

    A shallow embedding of [frontend/script.js] and of the part of the
    JavaScript run time that the script relies on (string trimming,
    number formatting, the conversions performed by template literals and
    by the [*] operator, JSON quoting).

    Conventions.
    - A JavaScript string is a Rocq [string] holding the UTF-8 encoding of
      its text, so the literals of the script can be written as they stand.
    - A JavaScript number is an IEEE 754 binary64 value, represented by
      [spec_float] with precision 53 and exponent bound 1024.
    - The page is a record of the DOM properties the script reads and
      writes; the handler runs in a state-and-exception monad over it. *)

From Stdlib Require Import ZArith List String Ascii Bool Lia Decimal DecimalString.
From Stdlib Require Import Floats.SpecFloat.
Import ListNotations.

#[local] Open Scope string_scope.
#[local] Open Scope Z_scope.

(* ================================================================== *)
(** * Strings *)
(* ================================================================== *)

Module Str.

Fixpoint concat (l : list string) : string :=
  match l with
  | [] => ""
  | s :: r => s ++ concat r
  end.

(** [l.join(sep)] for an array of strings is [String.concat sep l]. *)

Fixpoint repeat (c : ascii) (n : nat) : string :=
  match n with
  | O => ""
  | S k => String c (repeat c k)
  end.

Fixpoint take (n : nat) (s : string) : string :=
  match n, s with
  | S k, String c r => String c (take k r)
  | _, _ => ""
  end.

Fixpoint drop (n : nat) (s : string) : string :=
  match n, s with
  | S k, String _ r => drop k r
  | _, _ => s
  end.

Fixpoint forallb (p : ascii -> bool) (s : string) : bool :=
  match s with
  | "" => true
  | String c r => p c && forallb p r
  end.

Definition is_empty (s : string) : bool :=
  match s with "" => true | _ => false end.

(** [t] occurs in [s] as a contiguous run of characters. *)
Definition contains (s t : string) : Prop :=
  exists pre post, s = pre ++ t ++ post.

Fixpoint containsb (s t : string) : bool :=
  prefix t s || match s with
                | "" => false
                | String _ r => containsb r t
                end.





End Str.

(* ================================================================== *)
(** * Numbers *)
(* ================================================================== *)

Module Num.

Definition number := spec_float.

Definition prec : Z := 53.
Definition emax : Z := 1024.

Definition NaN : number := S754_nan.
Definition mul (x y : number) : number := SFmul prec emax x y.

(** The number nearest to the integer [n] (ties to even). *)
Definition of_Z (n : Z) : number := binary_normalize prec emax n 0 false.

(** The number nearest to [p / q] (ties to even). *)
Definition of_ratio (neg : bool) (p q : positive) : number :=
  let '(m, e, l) := SFdiv_core_binary prec emax (Zpos p) 0 (Zpos q) 0 in
  binary_round_aux prec emax neg m e l.

(** The number nearest to [(-1)^neg * digits * 10^e10]: the value of a
    decimal literal, in JSON text and in [StringToNumber]. *)
Definition of_decimal (neg : bool) (digits : Z) (e10 : Z) : number :=
  match digits with
  | Zpos p =>
      if 0 <=? e10
      then binary_normalize prec emax
             (if neg then - (digits * 10 ^ e10) else digits * 10 ^ e10) 0 false
      else of_ratio neg p (Z.to_pos (10 ^ (- e10)))
  | _ => S754_zero neg
  end.

Definition eqb_repr (x y : number) : bool :=
  match x, y with
  | S754_zero a, S754_zero b => Bool.eqb a b
  | S754_infinity a, S754_infinity b => Bool.eqb a b
  | S754_nan, S754_nan => true
  | S754_finite a m e, S754_finite b m' e' =>
      Bool.eqb a b && Pos.eqb m m' && Z.eqb e e'
  | _, _ => false
  end.

(** Decimal digits of a natural number, most significant first. *)
Definition decimal (n : Z) : string :=
  NilZero.string_of_uint (N.to_uint (Z.to_N n)).

Definition ndigits (n : Z) : Z := Z.of_nat (String.length (decimal n)).

Definition is_digit (c : ascii) : bool :=
  let n := nat_of_ascii c in (48 <=? n)%nat && (n <=? 57)%nat.

(* ---------------------------------------------------------------- *)
(** ** [Number::toString], radix 10 *)

(** Exact value of a positive finite number as a fraction. *)
Definition fraction (m : positive) (e : Z) : Z * Z :=
  if 0 <=? e then (Zpos m * 2 ^ e, 1) else (Zpos m, 2 ^ (- e)).

(** The [n] with [10^(n-1) <= num/den < 10^n]. *)
Definition decimal_exponent (num den : Z) : Z :=
  if den <=? num then ndigits (num / den)
  else
    let t0 := Z.max 1 (ndigits den - ndigits num) in
    let t := if den <=? num * 10 ^ t0 then t0 else t0 + 1 in
    1 - t.

(** [num/den * 10^j] as a fraction. *)
Definition scale10 (num den j : Z) : Z * Z :=
  if 0 <=? j then (num * 10 ^ j, den) else (num, den * 10 ^ (- j)).

(** Does the decimal [s * 10^(n-k)] read back as [x]? *)
Definition reads_back (x : number) (s n k : Z) : bool :=
  eqb_repr (of_decimal false s (n - k)) x.

(** Candidate with [k] digits: the result is [(s, n)]. *)
Definition candidate (x : number) (num den n0 k : Z) : option (Z * Z) :=
  let '(a, b) := scale10 num den (k - n0) in
  let lo := a / b in
  let r := a mod b in
  let fix_hi s := if s =? 10 ^ k then (10 ^ (k - 1), n0 + 1) else (s, n0) in
  if r =? 0 then Some (lo, n0)
  else
    let ok_lo := reads_back x lo n0 k in
    let '(hi, nh) := fix_hi (lo + 1) in
    let ok_hi := reads_back x hi nh k in
    match ok_lo, ok_hi with
    | false, false => None
    | true, false => Some (lo, n0)
    | false, true => Some (hi, nh)
    | true, true =>
        match 2 * r ?= b with
        | Lt => Some (lo, n0)
        | Gt => Some (hi, nh)
        | Eq => if Z.even lo then Some (lo, n0) else Some (hi, nh)
        end
    end.

Fixpoint shortest (fuel : nat) (x : number) (num den n0 k : Z) : Z * Z * Z :=
  match candidate x num den n0 k with
  | Some (s, n) => (s, n, k)
  | None =>
      match fuel with
      | O => let '(a, b) := scale10 num den (k - n0) in (a / b, n0, k)
      | S fuel' => shortest fuel' x num den n0 (k + 1)
      end
  end.

Definition exponent_part (n : Z) : string :=
  "e" ++ (if 0 <=? n - 1 then "+" else "-") ++ decimal (Z.abs (n - 1)).

Definition layout (digits : string) (n k : Z) : string :=
  if (k <=? n) && (n <=? 21) then
    digits ++ Str.repeat "0" (Z.to_nat (n - k))
  else if (0 <? n) && (n <=? 21) then
    Str.take (Z.to_nat n) digits ++ "." ++ Str.drop (Z.to_nat n) digits
  else if (-6 <? n) && (n <=? 0) then
    "0." ++ Str.repeat "0" (Z.to_nat (- n)) ++ digits
  else if k =? 1 then
    digits ++ exponent_part n
  else
    Str.take 1 digits ++ "." ++ Str.drop 1 digits ++ exponent_part n.

Definition toString_pos (m : positive) (e : Z) : string :=
  let '(num, den) := fraction m e in
  let n0 := decimal_exponent num den in
  let '(s, n, k) := shortest 17 (S754_finite false m e) num den n0 1 in
  layout (decimal s) n k.

Definition toString (x : number) : string :=
  match x with
  | S754_nan => "NaN"
  | S754_zero _ => "0"
  | S754_infinity s => if s then "-Infinity" else "Infinity"
  | S754_finite s m e => (if s then "-" else "") ++ toString_pos m e
  end.

(* ---------------------------------------------------------------- *)
(** ** [Number.prototype.toFixed] *)

(** The integer [n] for which [n / 10^f - m * 2^e] is closest to zero,
    the larger one when there are two. *)
Definition round_scaled (m : positive) (e : Z) (f : nat) : Z :=
  let p := Zpos m * 10 ^ Z.of_nat f in
  if 0 <=? e then p * 2 ^ e
  else (2 * p + 2 ^ (- e)) / 2 ^ (1 - e).

(** Steps 11.a-11.c: the digits of [n] with a point before the last [f]. *)
Definition fixed_digits (n : Z) (f : nat) : string :=
  let m := decimal n in
  match f with
  | O => m
  | _ =>
      let k := String.length m in
      let m' := if (k <=? f)%nat then Str.repeat "0" (f + 1 - k) ++ m else m in
      let k' := String.length m' in
      Str.take (k' - f) m' ++ "." ++ Str.drop (k' - f) m'
  end.

Definition lt_1e21 (m : positive) (e : Z) : bool :=
  let '(num, den) := fraction m e in num <? 10 ^ 21 * den.

Definition toFixed (x : number) (f : nat) : string :=
  match x with
  | S754_nan => "NaN"
  | S754_infinity s => if s then "-Infinity" else "Infinity"
  | S754_zero _ => fixed_digits 0 f
  | S754_finite s m e =>
      (if s then "-" else "") ++
      (if lt_1e21 m e then fixed_digits (round_scaled m e f) f
       else toString_pos m e)
  end.

End Num.

(* ================================================================== *)
(** * Values, completions and conversions *)
(* ================================================================== *)

Module Js.

Import Num.

#[local] Set Warnings "-register-all".

(** Values that [JSON.parse] produces, and [undefined], which reading a
    missing property produces.  An object is the list of its own
    properties; reading a key returns the first binding. *)
Inductive value : Type :=
| JUndefined
| JNull
| JBool (b : bool)
| JNum (x : number)
| JStr (s : string)
| JArr (items : list value)
| JObj (fields : list (string * value)).

Inductive exn : Type :=
| Error (message : string)
| TypeError (message : string)
| SyntaxError (message : string).

Inductive completion (A : Type) : Type :=
| Normal (a : A)
| Throw (e : exn).
Arguments Normal {A} a.
Arguments Throw {A} e.

Definition cbind {A B} (c : completion A) (k : A -> completion B) : completion B :=
  match c with
  | Normal a => k a
  | Throw e => Throw e
  end.

(* ---------------------------------------------------------------- *)
(** ** White space and [String.prototype.trim] *)

Definition code (c : ascii) : N := N_of_ascii c.

(** Remove one WhiteSpace or LineTerminator code point from the front:
    TAB LF VT FF CR SP, and in UTF-8 U+00A0, U+1680, U+2000..U+200A,
    U+2028, U+2029, U+202F, U+205F, U+3000, U+FEFF. *)
Definition strip_ws1 (s : string) : option string :=
  match s with
  | String c1 r1 =>
      let a := code c1 in
      if ((9 <=? a) && (a <=? 13) || (a =? 32))%N then Some r1
      else
        match r1 with
        | String c2 r2 =>
            let b := code c2 in
            if ((a =? 194) && (b =? 160))%N then Some r2
            else
              match r2 with
              | String c3 r3 =>
                  let c := code c3 in
                  if ((a =? 225) && (b =? 154) && (c =? 128)
                      || (a =? 226) && (b =? 128)
                         && ((128 <=? c) && (c <=? 138) || (c =? 168)
                             || (c =? 169) || (c =? 175))
                      || (a =? 226) && (b =? 129) && (c =? 159)
                      || (a =? 227) && (b =? 128) && (c =? 128)
                      || (a =? 239) && (b =? 187) && (c =? 191))%N
                  then Some r3 else None
              | _ => None
              end
        | _ => None
        end
  | _ => None
  end.

Fixpoint trimStart_fuel (fuel : nat) (s : string) : string :=
  match fuel with
  | O => s
  | S k => match strip_ws1 s with
           | Some r => trimStart_fuel k r
           | None => s
           end
  end.

Definition trimStart (s : string) : string := trimStart_fuel (String.length s) s.

Definition all_ws (s : string) : bool := Str.is_empty (trimStart s).

Fixpoint trimEnd (s : string) : string :=
  match s with
  | "" => ""
  | String c r => if all_ws s then "" else String c (trimEnd r)
  end.

Definition trim (s : string) : string := trimEnd (trimStart s).

(* ---------------------------------------------------------------- *)
(** ** [StringToNumber] *)

Definition digit_of (radix : Z) (c : ascii) : option Z :=
  let a := Z.of_N (code c) in
  let d := if (48 <=? a) && (a <=? 57) then a - 48
           else if (97 <=? a) && (a <=? 102) then a - 87
           else if (65 <=? a) && (a <=? 70) then a - 55
           else radix in
  if d <? radix then Some d else None.

(** Reads the longest run of digits: the mantissa continued from [acc],
    the number of digits read, and the rest. *)
Fixpoint read_digits (radix : Z) (s : string) (acc n : Z) : Z * Z * string :=
  match s with
  | String c r =>
      match digit_of radix c with
      | Some d => read_digits radix r (acc * radix + d) (n + 1)
      | None => (acc, n, s)
      end
  | "" => (acc, n, s)
  end.

Definition is_char (c : ascii) (a b : ascii) : bool :=
  Ascii.eqb c a || Ascii.eqb c b.

(** ExponentPart, optional: [None] when what follows the mantissa is not
    an exponent part reaching the end of the literal. *)
Definition read_exponent (s : string) : option Z :=
  match s with
  | "" => Some 0
  | String c r =>
      if is_char c "e" "E" then
        let '(neg, r') :=
          match r with
          | String "+" t => (false, t)
          | String "-" t => (true, t)
          | _ => (false, r)
          end in
        let '(v, n, rest) := read_digits 10 r' 0 0 in
        if (0 <? n) && Str.is_empty rest
        then Some (if neg : bool then - v else v) else None
      else None
  end.

Definition StrUnsignedDecimalLiteral (neg : bool) (s : string) : number :=
  if String.eqb s "Infinity" then S754_infinity neg
  else
    let '(i, ni, r1) := read_digits 10 s 0 0 in
    let '(m, nf, r2) :=
      match r1 with
      | String "." r => read_digits 10 r i 0
      | _ => (i, 0, r1)
      end in
    if (0 <? ni) || (0 <? nf) then
      match read_exponent r2 with
      | Some e => of_decimal neg m (e - nf)
      | None => NaN
      end
    else NaN.

Definition NonDecimalIntegerLiteral (radix : Z) (s : string) : number :=
  let '(v, n, rest) := read_digits radix s 0 0 in
  if (0 <? n) && Str.is_empty rest then of_Z v else NaN.

Definition StringToNumber (s : string) : number :=
  match trim s with
  | "" => S754_zero false
  | String "+" r => StrUnsignedDecimalLiteral false r
  | String "-" r => StrUnsignedDecimalLiteral true r
  | String "0" (String c r) as t =>
      if is_char c "x" "X" then NonDecimalIntegerLiteral 16 r
      else if is_char c "o" "O" then NonDecimalIntegerLiteral 8 r
      else if is_char c "b" "B" then NonDecimalIntegerLiteral 2 r
      else StrUnsignedDecimalLiteral false t
  | t => StrUnsignedDecimalLiteral false t
  end.

(* ---------------------------------------------------------------- *)
(** ** Property access, [ToBoolean], [ToString], [ToNumber] *)

Fixpoint lookup (key : string) (fields : list (string * value)) : option value :=
  match fields with
  | [] => None
  | (k, v) :: r => if String.eqb k key then Some v else lookup key r
  end.

Definition has_own (key : string) (fields : list (string * value)) : bool :=
  match lookup key fields with Some _ => true | None => false end.

(** [v.key], for the property names of this script: none of them is a
    property of the String, Number, Boolean, Array or Object prototypes,
    so only own properties of objects are found. *)
Definition Get (v : value) (key : string) : completion value :=
  match v with
  | JUndefined | JNull =>
      Throw (TypeError ("Cannot read properties of null or undefined (reading '"
                        ++ key ++ "')"))
  | JObj fields =>
      Normal (match lookup key fields with Some w => w | None => JUndefined end)
  | _ => Normal JUndefined
  end.

Definition ToBoolean (v : value) : bool :=
  match v with
  | JUndefined | JNull => false
  | JBool b => b
  | JNum (S754_zero _) | JNum S754_nan => false
  | JNum _ => true
  | JStr s => negb (Str.is_empty s)
  | JArr _ | JObj _ => true
  end.

Definition not_primitive : exn :=
  TypeError "Cannot convert object to primitive value".

(** [ToString].  An array is joined with commas, [null] and [undefined]
    elements giving the empty string.  A parsed object inherits
    [Object.prototype.toString] unless it has an own property of that
    name, which cannot be a function, and then the conversion finds no
    primitive value. *)
Fixpoint ToString (v : value) : completion string :=
  match v with
  | JUndefined => Normal "undefined"
  | JNull => Normal "null"
  | JBool b => Normal (if b then "true" else "false")
  | JNum x => Normal (toString x)
  | JStr s => Normal s
  | JArr items =>
      let fix elements (l : list value) : completion (list string) :=
        match l with
        | [] => Normal []
        | e :: r =>
            cbind (match e with
                   | JUndefined | JNull => Normal ""
                   | _ => ToString e
                   end)
              (fun s => cbind (elements r) (fun ss => Normal (s :: ss)))
        end in
      cbind (elements items) (fun ss => Normal (String.concat "," ss))
  | JObj fields =>
      if has_own "toString" fields then Throw not_primitive
      else Normal "[object Object]"
  end.

Definition ToNumber (v : value) : completion number :=
  match v with
  | JUndefined => Normal NaN
  | JNull => Normal (S754_zero false)
  | JBool b => Normal (if b then of_Z 1 else S754_zero false)
  | JNum x => Normal x
  | JStr s => Normal (StringToNumber s)
  | JArr _ | JObj _ => cbind (ToString v) (fun s => Normal (StringToNumber s))
  end.

(** [v * k] for a number [k]. *)
Definition times (v : value) (k : number) : completion number :=
  cbind (ToNumber v) (fun x => Normal (mul x k)).

(** [v.toFixed(f)]: only numbers have a [toFixed] method. *)
Definition call_toFixed (v : value) (f : nat) : completion string :=
  match v with
  | JNum x => Normal (toFixed x f)
  | JUndefined | JNull =>
      Throw (TypeError "Cannot read properties of null or undefined (reading 'toFixed')")
  | _ => Throw (TypeError "toFixed is not a function")
  end.

(* ---------------------------------------------------------------- *)
(** ** [JSON.stringify] *)

Definition hex_digit (n : N) : ascii :=
  ascii_of_N (if (n <? 10)%N then 48 + n else 87 + n).

Definition char (n : N) : string := String (ascii_of_N n) "".

Definition quote_char (c : ascii) : string :=
  let a := code c in
  let backslash := char 92 in
  if (a =? 8)%N then backslash ++ "b"
  else if (a =? 9)%N then backslash ++ "t"
  else if (a =? 10)%N then backslash ++ "n"
  else if (a =? 12)%N then backslash ++ "f"
  else if (a =? 13)%N then backslash ++ "r"
  else if (a =? 34)%N then backslash ++ char 34
  else if (a =? 92)%N then backslash ++ backslash
  else if (a <? 32)%N then
    backslash ++ "u00" ++ String (hex_digit (a / 16)) (String (hex_digit (a mod 16)) "")
  else String c "".

Fixpoint quote_chars (s : string) : string :=
  match s with
  | "" => ""
  | String c r => quote_char c ++ quote_chars r
  end.

Definition QuoteJSONString (s : string) : string :=
  char 34 ++ quote_chars s ++ char 34.

(** [SerializeJSONProperty]; [None] stands for [undefined].  Objects are
    taken to have distinct keys, none of them an array index, so that the
    properties are written in the order of the list. *)
Fixpoint SerializeJSONProperty (v : value) : option string :=
  match v with
  | JUndefined => None
  | JNull => Some "null"
  | JBool b => Some (if b then "true" else "false")
  | JNum x =>
      Some (match x with
            | S754_nan | S754_infinity _ => "null"
            | _ => toString x
            end)
  | JStr s => Some (QuoteJSONString s)
  | JArr items =>
      let fix elements (l : list value) : list string :=
        match l with
        | [] => []
        | e :: r =>
            match SerializeJSONProperty e with
            | Some s => s
            | None => "null"
            end :: elements r
        end in
      Some ("[" ++ String.concat "," (elements items) ++ "]")
  | JObj fields =>
      let fix properties (l : list (string * value)) : list string :=
        match l with
        | [] => []
        | (k, w) :: r =>
            match SerializeJSONProperty w with
            | Some s => (QuoteJSONString k ++ ":" ++ s) :: properties r
            | None => properties r
            end
        end in
      Some ("{" ++ String.concat "," (properties fields) ++ "}")
  end.

Definition JSON_stringify (v : value) : option string := SerializeJSONProperty v.

(* ---------------------------------------------------------------- *)
(** ** Reading a JSON string literal *)

Definition hex_value (c : ascii) : option N :=
  option_map Z.to_N (digit_of 16 c).

(** The characters of a string literal after its opening quote, up to
    the closing quote, and what follows it.  Escapes beyond U+007F are
    not read: [QuoteJSONString] writes none. *)
Fixpoint read_chars (s : string) : option (string * string) :=
  match s with
  | "" => None
  | String c r =>
      if (code c =? 34)%N then Some ("", r)
      else if (code c <? 32)%N then None
      else if (code c =? 92)%N then
        match r with
        | String e r' =>
            let put (x : N) (t : string) :=
              option_map (fun tr => (String (ascii_of_N x) (fst tr), snd tr))
                         (read_chars t) in
            let a := code e in
            if ((a =? 34) || (a =? 92) || (a =? 47))%N then put a r'
            else if (a =? 98)%N then put 8%N r'
            else if (a =? 116)%N then put 9%N r'
            else if (a =? 110)%N then put 10%N r'
            else if (a =? 102)%N then put 12%N r'
            else if (a =? 114)%N then put 13%N r'
            else if (a =? 117)%N then
              match r' with
              | String h1 (String h2 (String h3 (String h4 r''))) =>
                  match hex_value h1, hex_value h2, hex_value h3, hex_value h4 with
                  | Some d1, Some d2, Some d3, Some d4 =>
                      let cp := (((d1 * 16 + d2) * 16 + d3) * 16 + d4)%N in
                      if (cp <? 128)%N then put cp r'' else None
                  | _, _, _, _ => None
                  end
              | _ => None
              end
            else None
        | "" => None
        end
      else option_map (fun tr => (String c (fst tr), snd tr)) (read_chars r)
  end.

(** [s] without its prefix [p]. *)
Fixpoint expect (p s : string) : option string :=
  match p with
  | "" => Some s
  | String a p' =>
      match s with
      | String b s' => if Ascii.eqb a b then expect p' s' else None
      | "" => None
      end
  end.

End Js.

(* ================================================================== *)
(** * The page, the network and the script *)
(* ================================================================== *)

Module Script.

Import Num Js.

(** Template text is written with a backquote standing for each double
    quote; [tpl] puts the double quotes back. *)
Fixpoint tpl (s : string) : string :=
  match s with
  | "" => ""
  | String c r => String (if (code c =? 96)%N then ascii_of_N 34 else c) (tpl r)
  end.

Inductive element : Type :=
| textInput | micBtn | clearBtn | processBtn
| resultsContainer | metricsContainer | targetLangSelect | tiltCard.

Record request : Type := {
  url : string;
  method : string;
  headers : list (string * string);
  body : option string
}.

(** A response: its status and what [res.json()] settles to. *)
Record response : Type := {
  status : N;
  json : completion value
}.

Definition ok (res : response) : bool :=
  ((200 <=? status res) && (status res <=? 299))%N.

(** What the script reads and writes: the value of the text field and of
    the language selection, the markup last assigned to the two display
    regions, the focused element, the console and the requests sent. *)
Record page : Type := {
  textInput_value : string;
  targetLangSelect_value : string;
  resultsContainer_innerHTML : string;
  metricsContainer_innerHTML : string;
  activeElement : option element;
  console : list exn;
  network : list request
}.

(* ---------------------------------------------------------------- *)
(** ** State and exceptions *)

Definition M (A : Type) : Type := page -> page * completion A.

Definition ret {A} (a : A) : M A := fun pg => (pg, Normal a).

Definition bind {A B} (c : M A) (k : A -> M B) : M B :=
  fun pg =>
    match c pg with
    | (pg', Normal a) => k a pg'
    | (pg', Throw e) => (pg', Throw e)
    end.

Definition throw {A} (e : exn) : M A := fun pg => (pg, Throw e).

Definition lift {A} (c : completion A) : M A := fun pg => (pg, c).

Definition try_catch (c : M unit) (handler : exn -> M unit) : M unit :=
  fun pg =>
    match c pg with
    | (pg', Normal a) => (pg', Normal a)
    | (pg', Throw e) => handler e pg'
    end.

Notation "x <- c ;; k" := (bind c (fun x => k))
  (at level 61, c at next level, right associativity).
Notation "c ;; k" := (bind c (fun _ => k))
  (at level 61, right associativity).

Definition set_resultsContainer_innerHTML (h : string) : M unit :=
  fun pg =>
    ({| textInput_value := textInput_value pg;
        targetLangSelect_value := targetLangSelect_value pg;
        resultsContainer_innerHTML := h;
        metricsContainer_innerHTML := metricsContainer_innerHTML pg;
        activeElement := activeElement pg;
        console := console pg;
        network := network pg |}, Normal tt).

Definition set_metricsContainer_innerHTML (h : string) : M unit :=
  fun pg =>
    ({| textInput_value := textInput_value pg;
        targetLangSelect_value := targetLangSelect_value pg;
        resultsContainer_innerHTML := resultsContainer_innerHTML pg;
        metricsContainer_innerHTML := h;
        activeElement := activeElement pg;
        console := console pg;
        network := network pg |}, Normal tt).

(** [el.focus()], the element being focusable. *)
Definition focus (el : element) : M unit :=
  fun pg =>
    ({| textInput_value := textInput_value pg;
        targetLangSelect_value := targetLangSelect_value pg;
        resultsContainer_innerHTML := resultsContainer_innerHTML pg;
        metricsContainer_innerHTML := metricsContainer_innerHTML pg;
        activeElement := Some el;
        console := console pg;
        network := network pg |}, Normal tt).

Definition console_error (e : exn) : M unit :=
  fun pg =>
    ({| textInput_value := textInput_value pg;
        targetLangSelect_value := targetLangSelect_value pg;
        resultsContainer_innerHTML := resultsContainer_innerHTML pg;
        metricsContainer_innerHTML := metricsContainer_innerHTML pg;
        activeElement := activeElement pg;
        console := console pg ++ [e];
        network := network pg |}, Normal tt).

Definition send (req : request) : M unit :=
  fun pg =>
    ({| textInput_value := textInput_value pg;
        targetLangSelect_value := targetLangSelect_value pg;
        resultsContainer_innerHTML := resultsContainer_innerHTML pg;
        metricsContainer_innerHTML := metricsContainer_innerHTML pg;
        activeElement := activeElement pg;
        console := console pg;
        network := network pg ++ [req] |}, Normal tt).

Definition read {A} (f : page -> A) : M A := fun pg => (pg, Normal (f pg)).

(* ---------------------------------------------------------------- *)
(** ** Markup *)

Definition API_URL : string := "http://127.0.0.1:5000".

Definition loading_view : string :=
  tpl "
    <div class=`flex justify-center p-8`>
      <div class=`loader`></div>
      <p class=`ml-4 text-slate-600`>Analyzing pipeline...</p>
    </div>".

Definition calculating_view : string :=
  tpl "<p class=`text-slate-500`>Calculating...</p>".

Definition error_view : string :=
  tpl "<div class=`bg-red-50 border border-red-200 p-4 rounded-lg`><p class=`text-red-700`>❌ Backend error. Is Flask running?</p></div>".

Definition failed_view : string :=
  tpl "<p class=`text-red-500`>Failed</p>".

Definition norm_view (normalized_text : string) : string :=
  tpl "
    <div class=`mt-3 p-3 bg-sky-50 border-l-4 border-sky-300 rounded-r-lg animate-fadeIn`>
      <h4 class=`font-semibold text-slate-600`>Normalized Input</h4>
      <p class=`mt-1 text-slate-800`>" ++
  normalized_text ++
  "</p>
    </div>".

Definition item_view (rank domain lang score text : string) : string :=
  tpl "
      <div class=`p-3 rounded-md border bg-amber-50 mb-2 result-item animate-slideUp`>
        <div class=`text-xs text-amber-700 mb-1`>#" ++
  rank ++
  " • " ++
  domain ++
  " • " ++
  lang ++
  " • score " ++
  score ++
  tpl "</div>
        <div class=`text-slate-800`>" ++
  text ++
  "</div>
      </div>
    ".

Definition no_items_view : string :=
  tpl "<div class=`text-slate-500`>No relevant items found.</div>".

Definition results_view
  (detected_language_name original_text norm ragList translated_text : string) : string :=
  tpl "
    <div class=`bg-gray-50 rounded-lg p-6 shadow-sm space-y-4 result-card animate-fadeIn`>
      <div>
        <h3 class=`font-semibold text-slate-500`>Detected Language</h3>
        <span class=`inline-block bg-indigo-100 text-indigo-700 text-sm font-bold px-3 py-1 rounded-full`>" ++
  detected_language_name ++
  tpl "</span>
        <p class=`mt-2 text-lg text-slate-900`>" ++
  original_text ++
  "</p>
      </div>
      " ++
  norm ++
  tpl "
      <div>
        <h3 class=`font-semibold text-slate-500`>Retrieved Context (Top-K)</h3>
        " ++
  ragList ++
  tpl "
      </div>
      <div>
        <h3 class=`font-semibold text-slate-500`>Final Output</h3>
        <p id=`translated-text` class=`mt-1 text-xl font-semibold text-indigo-700 animate-popIn`>" ++
  translated_text ++
  "</p>
      </div>
    </div>
  ".

Definition metrics_view (bleu comet latency_ms nep tox : string) : string :=
  tpl "
    <div class=`grid grid-cols-2 sm:grid-cols-3 gap-4 animate-fadeIn`>
      <div>
        <p class=`text-sm text-slate-500`>BLEU</p>
        <p class=`text-lg font-bold text-slate-800`>" ++
  bleu ++
  tpl "</p>
      </div>
      <div>
        <p class=`text-sm text-slate-500`>COMET</p>
        <p class=`text-lg font-bold text-slate-800`>" ++
  comet ++
  tpl "</p>
      </div>
      <div>
        <p class=`text-sm text-slate-500`>Latency</p>
        <p class=`text-lg font-bold text-slate-800`>" ++
  latency_ms ++
  tpl " ms</p>
      </div>
      <div>
        <p class=`text-sm text-slate-500`>NE Preservation</p>
        <p class=`text-lg font-bold text-slate-800`>" ++
  nep ++
  tpl "%</p>
      </div>
      <div>
        <p class=`text-sm text-slate-500`>Toxicity Leakage</p>
        <p class=`text-lg font-bold text-slate-800`>" ++
  tox ++
  "%</p>
      </div>
    </div>
  ".

(* ---------------------------------------------------------------- *)
(** ** Rendering *)

(** The callback of [.map] at index [i]: the substitutions of the
    template are evaluated and converted from left to right. *)
Definition render_item (i : nat) (r : value) : completion string :=
  let rank := decimal (Z.of_nat i + 1) in
  cbind (cbind (Get r "domain") ToString) (fun domain =>
  cbind (cbind (Get r "lang") ToString) (fun lang =>
  cbind (cbind (Get r "score") (fun v => call_toFixed v 3)) (fun score =>
  cbind (cbind (Get r "text") ToString) (fun text =>
  Normal (item_view rank domain lang score text))))).

Fixpoint map_items (i : nat) (l : list value) : completion (list string) :=
  match l with
  | [] => Normal []
  | r :: rest =>
      cbind (render_item i r) (fun h =>
      cbind (map_items (S i) rest) (fun hs => Normal (h :: hs)))
  end.

(** [(v || []).map(...)]: only arrays have a [map] method. *)
Definition items_or_empty (v : value) : completion (list value) :=
  if ToBoolean v then
    match v with
    | JArr l => Normal l
    | _ => Throw (TypeError "(d.retrieved_items || []).map is not a function")
    end
  else Normal [].

Definition norm_of (d : value) : completion string :=
  cbind (Get d "normalized_text") (fun v =>
  if ToBoolean v then cbind (ToString v) (fun s => Normal (norm_view s))
  else Normal "").

Definition ragList_of (d : value) : completion string :=
  cbind (Get d "retrieved_items") (fun v =>
  cbind (items_or_empty v) (fun l =>
  cbind (map_items 0 l) (fun hs =>
  let joined := String.concat "" hs in
  Normal (if Str.is_empty joined then no_items_view else joined)))).

(** The markup that [renderResults] assigns. *)
Definition results_markup (d : value) : completion string :=
  cbind (norm_of d) (fun norm =>
  cbind (ragList_of d) (fun ragList =>
  cbind (cbind (Get d "detected_language_name") ToString) (fun name =>
  cbind (cbind (Get d "original_text") ToString) (fun original =>
  cbind (cbind (Get d "translated_text") ToString) (fun translated =>
  Normal (results_view name original norm ragList translated)))))).

(** The assignment of the markup.  The loop that follows it in the
    source sets [style.animationDelay] on every element of class
    [result-item] that the document then has; it is not part of this
    definition, and [resultsContainer_innerHTML] and
    [metricsContainer_innerHTML] hold the markup last assigned, not the
    serialization of the elements. *)
Definition renderResults (d : value) : M unit :=
  h <- lift (results_markup d) ;;
  set_resultsContainer_innerHTML h.

Definition percent (v : value) : completion string :=
  cbind (times v (of_Z 100)) (fun x => Normal (toFixed x 2)).

(** The markup that [renderMetrics] assigns. *)
Definition metrics_markup (m : value) : completion string :=
  cbind (cbind (Get m "bleu") ToString) (fun bleu =>
  cbind (cbind (Get m "comet") ToString) (fun comet =>
  cbind (cbind (Get m "latency_ms") ToString) (fun latency =>
  cbind (cbind (Get m "named_entity_preservation") percent) (fun nep =>
  cbind (cbind (Get m "toxicity_leakage") percent) (fun tox =>
  Normal (metrics_view bleu comet latency nep tox)))))).

Definition renderMetrics (m : value) : M unit :=
  h <- lift (metrics_markup m) ;;
  set_metricsContainer_innerHTML h.

(* ---------------------------------------------------------------- *)
(** ** The handler *)

Section Handler.

(** The backend and the transport: what [fetch] settles to for a
    request, a response or a rejection. *)
Variable server : request -> completion response.

Definition fetch (req : request) : M response :=
  send req ;; lift (server req).

Definition process_request (text target_lang : string) : request :=
  let payload := JObj [("text", JStr text); ("target_lang", JStr target_lang)] in
  {| url := API_URL ++ "/api/process";
     method := "POST";
     headers := [("Content-Type", "application/json")];
     body := JSON_stringify payload |}.

(** The click handler.  It is an async function: the completion of a
    run is what the promise it returns settles to, and [server] is
    consulted where the function awaits. *)
Definition handleProcess : M unit :=
  raw <- read textInput_value ;;
  let text := trim raw in
  if Str.is_empty text then focus textInput
  else
    set_resultsContainer_innerHTML loading_view ;;
    set_metricsContainer_innerHTML calculating_view ;;
    try_catch
      (target_lang <- read targetLangSelect_value ;;
       res <- fetch (process_request text target_lang) ;;
       if negb (ok res)
       then throw (Error ("HTTP " ++ decimal (Z.of_N (status res))))
       else
         data <- lift (json res) ;;
         renderResults data ;;
         m <- lift (Get data "metrics") ;;
         renderMetrics m)
      (fun e =>
         console_error e ;;
         set_resultsContainer_innerHTML error_view ;;
         set_metricsContainer_innerHTML failed_view).

End Handler.

End Script.

(* ================================================================== *)
(** * The data model of the backend's answer *)
(* ================================================================== *)

Module Data.

Import Num Js Script.

Record RetrievedItem : Type := {
  domain : string;
  lang : string;
  score : number;
  text : string
}.

Record Metrics : Type := {
  bleu : number;
  comet : number;
  latency_ms : number;
  named_entity_preservation : number;
  toxicity_leakage : number
}.

Record ProcessResponse : Type := {
  detected_language_name : string;
  original_text : string;
  normalized_text : option string;
  retrieved_items : list RetrievedItem;
  translated_text : string;
  metrics : Metrics
}.

(** Reading [key] of [v] gives [w]. *)
Definition field (v : value) (key : string) (w : value) : Prop :=
  Get v key = Normal w.


Definition is_Metrics (v : value) (m : Metrics) : Prop :=
  field v "bleu" (JNum (bleu m)) /\
  field v "comet" (JNum (comet m)) /\
  field v "latency_ms" (JNum (latency_ms m)) /\
  field v "named_entity_preservation" (JNum (named_entity_preservation m)) /\
  field v "toxicity_leakage" (JNum (toxicity_leakage m)).




(** The parsed value of the JSON text that carries [p]. *)
Definition item_value (r : RetrievedItem) : value :=
  JObj [("domain", JStr (domain r)); ("lang", JStr (lang r));
        ("score", JNum (score r)); ("text", JStr (text r))].

Definition metrics_value (m : Metrics) : value :=
  JObj [("bleu", JNum (bleu m)); ("comet", JNum (comet m));
        ("latency_ms", JNum (latency_ms m));
        ("named_entity_preservation", JNum (named_entity_preservation m));
        ("toxicity_leakage", JNum (toxicity_leakage m))].

Definition response_value (p : ProcessResponse) : value :=
  JObj ([("detected_language_name", JStr (detected_language_name p));
         ("original_text", JStr (original_text p))]
        ++ match normalized_text p with
           | Some s => [("normalized_text", JStr s)]
           | None => []
           end
        ++ [("retrieved_items", JArr (map item_value (retrieved_items p)));
            ("translated_text", JStr (translated_text p));
            ("metrics", metrics_value (metrics p))]).

(* ---------------------------------------------------------------- *)
(** ** What the views are to show *)

(** The normalized-text block: present for a non-empty text only. *)
Definition norm_slot (o : option string) : string :=
  match o with
  | Some s => if Str.is_empty s then "" else norm_view s
  | None => ""
  end.

Definition item_element (i : nat) (r : RetrievedItem) : string :=
  item_view (decimal (Z.of_nat i + 1)) (domain r) (lang r)
            (toFixed (score r) 3) (text r).

(** One element per item, in the order received, ranks counted from
    the index [i] of the first one. *)
Fixpoint item_elements (i : nat) (l : list RetrievedItem) : list string :=
  match l with
  | [] => []
  | r :: rest => item_element i r :: item_elements (S i) rest
  end.

Definition rag_slot (l : list RetrievedItem) : string :=
  match l with
  | [] => no_items_view
  | _ => Str.concat (item_elements 0 l)
  end.

Definition results_of (p : ProcessResponse) : string :=
  results_view (detected_language_name p) (original_text p)
               (norm_slot (normalized_text p)) (rag_slot (retrieved_items p))
               (translated_text p).

Definition percentage (x : number) : string := toFixed (mul x (of_Z 100)) 2.

Definition metrics_of (m : Metrics) : string :=
  metrics_view (toString (bleu m)) (toString (comet m)) (toString (latency_ms m))
               (percentage (named_entity_preservation m))
               (percentage (toxicity_leakage m)).

(** A finite number of magnitude below [10^21]: the range in which
    [toFixed] writes plain decimal digits. *)
Definition plain_range (x : number) : bool :=
  match x with
  | S754_zero _ => true
  | S754_finite _ m e => lt_1e21 m e
  | _ => false
  end.

(** A number between zero and one. *)
Definition is_fraction (x : number) : bool :=
  match x with
  | S754_zero _ => true
  | S754_finite false m e => let '(num, den) := fraction m e in num <=? den
  | _ => false
  end.

(** The characters of the strings that [toString] and [toFixed] give. *)
Definition numeric_char (c : ascii) : bool :=
  is_digit c || Str.containsb "+-.INaefinty" (String c "").

(** Some string of the answer contains [marker]. *)
Definition item_mentions (marker : string) (r : RetrievedItem) : bool :=
  Str.containsb (domain r) marker || Str.containsb (lang r) marker ||
  Str.containsb (text r) marker.

Definition mentions (marker : string) (p : ProcessResponse) : bool :=
  Str.containsb (detected_language_name p) marker ||
  Str.containsb (original_text p) marker ||
  match normalized_text p with
  | Some s => Str.containsb s marker
  | None => false
  end ||
  List.existsb (item_mentions marker) (retrieved_items p) ||
  Str.containsb (translated_text p) marker.

(** [s] is an optional minus sign, digits, a point and exactly [f]
    digits. *)
Definition has_decimals (f : nat) (s : string) : Prop :=
  exists sign int frac,
    s = sign ++ int ++ "." ++ frac /\
    (sign = "" \/ sign = "-") /\
    int <> "" /\
    Str.forallb is_digit int = true /\
    Str.forallb is_digit frac = true /\
    String.length frac = f.

End Data.

(* ================================================================== *)
(** * One run of the handler, seen from outside *)
(* ================================================================== *)

Module Run.

Import Num Js Script.

(** The two markups that the [try] block ends up assigning for what
    [fetch] settled to, or the exception that reaches the [catch]. *)
Definition views_of (r : completion response) : completion (string * string) :=
  cbind r (fun res =>
  if negb (ok res) then Throw (Error ("HTTP " ++ decimal (Z.of_N (status res))))
  else
    cbind (json res) (fun data =>
    cbind (results_markup data) (fun rh =>
    cbind (Get data "metrics") (fun m =>
    cbind (metrics_markup m) (fun mh => Normal (rh, mh)))))).

(** The request of a run started on [pg]. *)
Definition request_of (pg : page) : request :=
  process_request (trim (textInput_value pg)) (targetLangSelect_value pg).

(** The JSON text of the payload. *)
Definition payload_text (text target_lang : string) : string :=
  tpl "{`text`:`" ++ quote_chars text ++
  tpl "`,`target_lang`:`" ++ quote_chars target_lang ++ tpl "`}".

(** The [text] and [target_lang] fields of a request body, as a reader
    of JSON finds them. *)
Definition read_payload (b : string) : option (string * string) :=
  match expect (tpl "{`text`:`") b with
  | Some r1 =>
      match read_chars r1 with
      | Some (text, r2) =>
          match expect (tpl ",`target_lang`:`") r2 with
          | Some r3 =>
              match read_chars r3 with
              | Some (target_lang, r4) =>
                  if String.eqb r4 "}" then Some (text, target_lang) else None
              | None => None
              end
          | None => None
          end
      | None => None
      end
  | None => None
  end.

(** The failures of the submit operation, with the exception each one
    raises: the transport rejects, the status is not in the ok range, or
    the body is not JSON. *)
Inductive failure : completion response -> exn -> Prop :=
| network_failure e :
    failure (Throw e) e
| status_failure res :
    ok res = false ->
    failure (Normal res) (Error ("HTTP " ++ decimal (Z.of_N (status res))))
| parse_failure res e :
    ok res = true -> json res = Throw e ->
    failure (Normal res) e.

(** The rendering functions do not get through [data]: [renderResults]
    throws [e], or it renders and then reading the metrics or
    [renderMetrics] throws [e]. *)
Definition render_throws (data : value) (e : exn) : Prop :=
  results_markup data = Throw e \/
  (exists rh, results_markup data = Normal rh) /\
  cbind (Get data "metrics") metrics_markup = Throw e.

(** Both regions show the views of [data]. *)
Definition success_views (data : value) (pg : page) : Prop :=
  results_markup data = Normal (resultsContainer_innerHTML pg) /\
  cbind (Get data "metrics") metrics_markup = Normal (metricsContainer_innerHTML pg).

(** Both regions show the error views. *)
Definition error_views (pg : page) : Prop :=
  resultsContainer_innerHTML pg = error_view /\
  metricsContainer_innerHTML pg = failed_view.

End Run.

(* ================================================================== *)
(** * Sample runs *)
(* ================================================================== *)

Module Sample.

Import Num Js Script Data.

Definition page_with (input selection : string) : page :=
  {| textInput_value := input;
     targetLangSelect_value := selection;
     resultsContainer_innerHTML := "<p>Results will appear here.</p>";
     metricsContainer_innerHTML := "<p>No metrics yet.</p>";
     activeElement := Some processBtn;
     console := [];
     network := [] |}.

Definition page_hello : page := page_with "  namaste duniya  " "te".
Definition page_blank : page := page_with "   " "hi".

Definition item_a : RetrievedItem :=
  {| domain := "greetings"; lang := "hi";
     score := of_decimal false 8231 (-4); text := "namaste" |}.

Definition item_b : RetrievedItem :=
  {| domain := "travel"; lang := "te";
     score := of_decimal false 5 (-1); text := "<b>duniya</b>" |}.

Definition metrics_hello : Metrics :=
  {| bleu := of_decimal false 325 (-1);
     comet := of_decimal false 81 (-2);
     latency_ms := of_Z 120;
     named_entity_preservation := of_decimal false 9567 (-4);
     toxicity_leakage := of_decimal false 1 (-2) |}.

Definition answer_hello : ProcessResponse :=
  {| detected_language_name := "Hindi";
     original_text := "namaste duniya";
     normalized_text := Some "namaste duniya";
     retrieved_items := [item_a; item_b];
     translated_text := "hello world";
     metrics := metrics_hello |}.

Definition answer_bare : ProcessResponse :=
  {| detected_language_name := "Hindi";
     original_text := "namaste duniya";
     normalized_text := None;
     retrieved_items := [];
     translated_text := "hello world";
     metrics := metrics_hello |}.

Definition answers (status : N) (body : completion value) : request -> completion response :=
  fun _ => Normal {| status := status; json := body |}.

Definition server_ok : request -> completion response :=
  answers 200 (Normal (response_value answer_hello)).

Definition server_500 : request -> completion response :=
  answers 500 (Normal (JObj [("error", JStr "internal")])).

Definition server_down : request -> completion response :=
  fun _ => Throw (TypeError "Failed to fetch").

Definition server_garbled : request -> completion response :=
  answers 200 (Throw (SyntaxError "Unexpected token < in JSON at position 0")).

(** An ok answer without the [metrics] object. *)
Definition no_metrics : value :=
  JObj [("detected_language_name", JStr "Hindi");
        ("original_text", JStr "namaste duniya");
        ("retrieved_items", JArr []);
        ("translated_text", JStr "hello world")].

(** An ok answer with an item whose [score] is a string. *)
Definition bad_score : value :=
  JObj [("detected_language_name", JStr "Hindi");
        ("original_text", JStr "namaste duniya");
        ("retrieved_items",
         JArr [JObj [("domain", JStr "travel"); ("lang", JStr "te");
                     ("score", JStr "0.5"); ("text", JStr "duniya")]]);
        ("translated_text", JStr "hello world");
        ("metrics", metrics_value metrics_hello)].

End Sample.

(* ================================================================== *)
(** * The handler between its awaits *)
(* ================================================================== *)

Module Phases.

Import Num Js Script.

(** The [catch] block. *)
Definition catch_block (e : exn) : M unit :=
  console_error e ;;
  set_resultsContainer_innerHTML error_view ;;
  set_metricsContainer_innerHTML failed_view.

(** The handler up to its first [await]: [true] when [fetch] has been
    called and the function is suspended on it. *)
Definition handleProcess_start : M bool :=
  raw <- read textInput_value ;;
  let text := trim raw in
  if Str.is_empty text then focus textInput ;; ret false
  else
    set_resultsContainer_innerHTML loading_view ;;
    set_metricsContainer_innerHTML calculating_view ;;
    target_lang <- read targetLangSelect_value ;;
    send (process_request text target_lang) ;;
    ret true.

(** From the settling of [fetch] to the second [await], on
    [res.json()], or to the end of the [catch] block: the response
    whose body is awaited, if any. *)
Definition handleProcess_fetched (r : completion response) : M (option response) :=
  match r with
  | Throw e => catch_block e ;; ret None
  | Normal res =>
      if negb (ok res)
      then catch_block (Error ("HTTP " ++ decimal (Z.of_N (status res)))) ;; ret None
      else ret (Some res)
  end.

(** From the settling of [res.json()] to the end. *)
Definition handleProcess_parsed (j : completion value) : M unit :=
  try_catch
    (data <- lift j ;;
     renderResults data ;;
     m <- lift (Get data "metrics") ;;
     renderMetrics m)
    catch_block.

(** Both continuations in a row, nothing running in between. *)
Definition settle (r : completion response) : M unit :=
  awaited <- handleProcess_fetched r ;;
  match awaited with
  | Some res => handleProcess_parsed (json res)
  | None => ret tt
  end.

(** The user edits the text field, which then holds [v]. *)
Definition user_types (v : string) : M unit :=
  fun pg =>
    ({| textInput_value := v;
        targetLangSelect_value := targetLangSelect_value pg;
        resultsContainer_innerHTML := resultsContainer_innerHTML pg;
        metricsContainer_innerHTML := metricsContainer_innerHTML pg;
        activeElement := activeElement pg;
        console := console pg;
        network := network pg |}, Normal tt).

(** The user picks the option of value [v] in the language list. *)
Definition user_selects (v : string) : M unit :=
  fun pg =>
    ({| textInput_value := textInput_value pg;
        targetLangSelect_value := v;
        resultsContainer_innerHTML := resultsContainer_innerHTML pg;
        metricsContainer_innerHTML := metricsContainer_innerHTML pg;
        activeElement := activeElement pg;
        console := console pg;
        network := network pg |}, Normal tt).

End Phases.

(* ================================================================== *)
(** * Which answers render *)
(* ================================================================== *)

Module Shape.

Import Num Js Script.

Definition nullish (v : value) : bool :=
  match v with
  | JUndefined | JNull => true
  | _ => false
  end.

(** No object with an own [toString] property is met when the value is
    converted to a string. *)
Fixpoint stringable (v : value) : bool :=
  match v with
  | JArr items =>
      (fix all (l : list value) : bool :=
         match l with
         | [] => true
         | e :: r => stringable e && all r
         end) items
  | JObj fields => negb (has_own "toString" fields)
  | _ => true
  end.

(** The conversion of the elements of an array, as [ToString] does it. *)
Fixpoint ToString_elements (l : list value) : completion (list string) :=
  match l with
  | [] => Normal []
  | e :: r =>
      cbind (match e with
             | JUndefined | JNull => Normal ""
             | _ => ToString e
             end)
        (fun s => cbind (ToString_elements r) (fun ss => Normal (s :: ss)))
  end.

(** The value of [v.key] when [v] is neither [null] nor [undefined]. *)
Definition prop (v : value) (key : string) : value :=
  match v with
  | JObj fields =>
      match lookup key fields with
      | Some w => w
      | None => JUndefined
      end
  | _ => JUndefined
  end.





Definition metrics_render (m : value) : bool :=
  negb (nullish m) &&
  stringable (prop m "bleu") && stringable (prop m "comet") &&
  stringable (prop m "latency_ms") &&
  stringable (prop m "named_entity_preservation") &&
  stringable (prop m "toxicity_leakage").


End Shape.

(* ================================================================== *)
(** * The whole page: the other handlers *)
(* ================================================================== *)

Module App.

Import Num Js Script.

(** ** [classList] *)

Definition classList_contains (token : string) (l : list string) : bool :=
  List.existsb (String.eqb token) l.

Definition classList_add (token : string) (l : list string) : list string :=
  if classList_contains token l then l else (l ++ [token])%list.

Definition classList_remove (token : string) (l : list string) : list string :=
  List.filter (fun t => negb (String.eqb token t)) l.

(** [classList.toggle(token, force)]. *)
Definition classList_toggle (token : string) (force : bool) (l : list string)
  : list string :=
  if force then classList_add token l else classList_remove token l.

(** ** Numbers of the tilt *)

Definition sub (x y : number) : number := SFsub prec emax x y.
Definition div (x y : number) : number := SFdiv prec emax x y.
Definition neg (x : number) : number := SFopp x.


(** What [getBoundingClientRect()] returns. *)
Record DOMRect : Type := {
  rect_left : number;
  rect_top : number;
  rect_width : number;
  rect_height : number
}.

(** The page of the submit operation, the class list of the clear
    button, the markup last assigned to the language list, and the tilt
    card: [None] when the document has no element of that id, otherwise
    the text last assigned to its [style.transform]; [tilt_listeners]
    tells whether [setup3DTilt] has registered its listeners. *)
Record document : Type := {
  page_of : page;
  clearBtn_classList : list string;
  targetLangSelect_innerHTML : string;
  tiltCard : option string;
  tilt_listeners : bool
}.

Definition with_page (f : page -> page) (doc : document) : document :=
  {| page_of := f (page_of doc);
     clearBtn_classList := clearBtn_classList doc;
     targetLangSelect_innerHTML := targetLangSelect_innerHTML doc;
     tiltCard := tiltCard doc;
     tilt_listeners := tilt_listeners doc |}.

Definition with_classList (f : list string -> list string) (doc : document)
  : document :=
  {| page_of := page_of doc;
     clearBtn_classList := f (clearBtn_classList doc);
     targetLangSelect_innerHTML := targetLangSelect_innerHTML doc;
     tiltCard := tiltCard doc;
     tilt_listeners := tilt_listeners doc |}.

Definition with_transform (t : string) (doc : document) : document :=
  {| page_of := page_of doc;
     clearBtn_classList := clearBtn_classList doc;
     targetLangSelect_innerHTML := targetLangSelect_innerHTML doc;
     tiltCard := match tiltCard doc with Some _ => Some t | None => None end;
     tilt_listeners := tilt_listeners doc |}.

(** ** [loadLanguages] *)

Definition langs : list (string * string) :=
  [("en", "🌐 English"); ("hi", "🇮🇳 Hindi (हिंदी)"); ("te", "🇮🇳 Telugu (తెలుగు)")].

Definition option_view (code name : string) : string :=
  tpl "<option value=`" ++ code ++ tpl "`>" ++ name ++ "</option>".

Definition languages_markup : string :=
  tpl "<option value=`` disabled selected>Choose language...</option>" ++
  String.concat "" (map (fun entry => option_view (fst entry) (snd entry)) langs).

(** The assignment replaces the options of the list; the one selected
    afterwards is the first, marked [selected], whose value is empty. *)
Definition loadLanguages (doc : document) : document :=
  {| page_of := fst (Phases.user_selects "" (page_of doc));
     clearBtn_classList := clearBtn_classList doc;
     targetLangSelect_innerHTML := languages_markup;
     tiltCard := tiltCard doc;
     tilt_listeners := tilt_listeners doc |}.

(** ** [setup3DTilt] and its listeners *)

Definition setup3DTilt (doc : document) : document :=
  match tiltCard doc with
  | None => doc
  | Some _ =>
      {| page_of := page_of doc;
         clearBtn_classList := clearBtn_classList doc;
         targetLangSelect_innerHTML := targetLangSelect_innerHTML doc;
         tiltCard := tiltCard doc;
         tilt_listeners := true |}
  end.

Definition tilt_transform (clientX clientY : number) (rect : DOMRect) : string :=
  let x := sub (sub clientX (rect_left rect)) (div (rect_width rect) (of_Z 2)) in
  let y := sub (sub clientY (rect_top rect)) (div (rect_height rect) (of_Z 2)) in
  "rotateX(" ++ toString (div (neg y) (of_Z 30)) ++ "deg) rotateY(" ++
  toString (div x (of_Z 30)) ++ "deg)".

Definition on_mousemove (clientX clientY : number) (rect : DOMRect)
  (doc : document) : document :=
  if tilt_listeners doc then with_transform (tilt_transform clientX clientY rect) doc
  else doc.

Definition on_mouseleave (doc : document) : document :=
  if tilt_listeners doc then with_transform "rotateX(0) rotateY(0)" doc else doc.

(** ** The other listeners *)

Definition on_DOMContentLoaded (doc : document) : document :=
  with_classList (classList_add "hidden") (setup3DTilt (loadLanguages doc)).

(** The text field holds [v] after the edit; then the listener runs. *)
Definition on_input (v : string) (doc : document) : document :=
  let doc' := with_page (fun pg => fst (Phases.user_types v pg)) doc in
  with_classList
    (classList_toggle "hidden" (Str.is_empty (textInput_value (page_of doc'))))
    doc'.

Definition on_clear_click (doc : document) : document :=
  let doc1 := with_page (fun pg => fst (Phases.user_types "" pg)) doc in
  let doc2 := with_classList (classList_add "hidden") doc1 in
  with_page (fun pg => fst (focus textInput pg)) doc2.

Definition on_process_click (server : request -> completion response)
  (doc : document) : document :=
  with_page (fun pg => fst (handleProcess server pg)) doc.

(** ** Events *)

Inductive event : Type :=
| DOMContentLoaded
| input (v : string)
| choose_language (v : string)
| clear_click
| process_click (server : request -> completion response)
| mousemove (clientX clientY : number) (rect : DOMRect)
| mouseleave.

Definition dispatch (ev : event) (doc : document) : document :=
  match ev with
  | DOMContentLoaded => on_DOMContentLoaded doc
  | input v => on_input v doc
  | choose_language v => with_page (fun pg => fst (Phases.user_selects v pg)) doc
  | clear_click => on_clear_click doc
  | process_click server => on_process_click server doc
  | mousemove clientX clientY rect => on_mousemove clientX clientY rect doc
  | mouseleave => on_mouseleave doc
  end.

Fixpoint run (events : list event) (doc : document) : document :=
  match events with
  | [] => doc
  | ev :: rest => run rest (dispatch ev doc)
  end.

(** The clear button is hidden exactly when the text field is empty. *)
Definition clear_button_tracks_text (doc : document) : Prop :=
  classList_contains "hidden" (clearBtn_classList doc) = true
  <-> textInput_value (page_of doc) = "".

Definition is_edit (ev : event) : bool :=
  match ev with
  | input _ | clear_click => true
  | _ => false
  end.

Definition is_load (ev : event) : bool :=
  match ev with
  | DOMContentLoaded => true
  | _ => false
  end.

Definition is_input (ev : event) : bool :=
  match ev with
  | input _ => true
  | _ => false
  end.

(** The requests that the events send, counted along the run. *)
Fixpoint submissions (events : list event) (doc : document) : nat :=
  match events with
  | [] => O
  | ev :: rest =>
      (match ev with
       | process_click _ =>
           if Str.is_empty (trim (textInput_value (page_of doc))) then O else 1%nat
       | _ => O
       end + submissions rest (dispatch ev doc))%nat
  end.

End App.

(* ================================================================== *)
(** * More sample data *)
(* ================================================================== *)

Module Visit.

Import Num Js Script App.

(** The document before it is loaded, with a text typed early. *)
Definition doc_hello : document :=
  {| page_of := Sample.page_hello;
     clearBtn_classList := ["absolute"; "hidden"; "text-slate-400"];
     targetLangSelect_innerHTML := "";
     tiltCard := Some "";
     tilt_listeners := false |}.


Definition sparse_metrics : value :=
  JObj [("bleu", JNum (of_decimal false 325 (-1)));
        ("toxicity_leakage", JNull)].


End Visit.

Import Num Js Script Data Run.

(* ================================================================== *)
(** * Strings: concatenation and occurrence *)
(* ================================================================== *)

Section StringFacts.

Lemma append_assoc (a b c : string) : (a ++ b) ++ c = a ++ (b ++ c).
Proof. induction a as [|x a IH]; simpl; [reflexivity | now rewrite IH]. Qed.

Lemma append_nil_r (a : string) : a ++ "" = a.
Proof. induction a as [|x a IH]; simpl; [reflexivity | now rewrite IH]. Qed.

Lemma length_append (a b : string) :
  String.length (a ++ b) = (String.length a + String.length b)%nat.
Proof. induction a as [|x a IH]; simpl; [reflexivity | now rewrite IH]. Qed.

Lemma is_empty_true (s : string) : Str.is_empty s = true <-> s = "".
Proof. destruct s; simpl; split; congruence. Qed.

Lemma is_empty_false (s : string) : Str.is_empty s = false <-> s <> "".
Proof. destruct s; simpl; split; congruence. Qed.

Lemma contains_refl (t : string) : Str.contains t t.
Proof. exists "", "". now rewrite append_nil_r. Qed.


Lemma contains_here (t b : string) : Str.contains (t ++ b) t.
Proof. now exists "", b. Qed.

Lemma contains_app_r (a b t : string) : Str.contains b t -> Str.contains (a ++ b) t.
Proof.
  intros (pre & post & ->). exists (a ++ pre), post. now rewrite append_assoc.
Qed.

Lemma contains_app_l (a b t : string) : Str.contains a t -> Str.contains (a ++ b) t.
Proof.
  intros (pre & post & ->). exists pre, (post ++ b). now rewrite !append_assoc.
Qed.



(** A variable part with the end of the literal before it and the
    beginning of the literal after it. *)
Lemma contains_mid (A v B rest L S : string) :
  Str.take (String.length A - String.length L) A ++ L = A ->
  S ++ Str.drop (String.length S) B = B ->
  Str.contains (A ++ v ++ B ++ rest) (L ++ v ++ S).
Proof.
  intros HA HB.
  exists (Str.take (String.length A - String.length L) A),
         (Str.drop (String.length S) B ++ rest).
  rewrite <- HA at 1. rewrite <- HB at 1. now rewrite !append_assoc.
Qed.

Lemma contains_mid_end (A v B L S : string) :
  Str.take (String.length A - String.length L) A ++ L = A ->
  S ++ Str.drop (String.length S) B = B ->
  Str.contains (A ++ v ++ B) (L ++ v ++ S).
Proof.
  intros HA HB.
  exists (Str.take (String.length A - String.length L) A),
         (Str.drop (String.length S) B).
  rewrite <- HA at 1. rewrite <- HB at 1. now rewrite !append_assoc.
Qed.

End StringFacts.

(** Occurrence in a concatenation, piece by piece. *)
Ltac occurs :=
  repeat first
    [ apply contains_here
    | apply contains_refl
    | assumption
    | apply contains_app_l; assumption
    | apply contains_mid; reflexivity
    | apply contains_mid_end; reflexivity
    | apply contains_app_r ].

(* ================================================================== *)
(** * Deciding occurrence *)
(* ================================================================== *)

Section Occurrence.

Lemma prefix_app (t s : string) :
  prefix t s = true <-> exists post, s = t ++ post.
Proof.
  revert s; induction t as [|a t IH]; intros s; simpl.
  - split; [intros _; now exists s | intros _; destruct s; reflexivity].
  - destruct s as [|b s]; simpl.
    + split; [discriminate | intros (post & E); discriminate].
    + destruct (ascii_dec a b) as [->|Hne].
      * rewrite IH. split; intros (post & E); exists post; congruence.
      * split; [discriminate | intros (post & E); congruence].
Qed.

Lemma containsb_spec (s t : string) :
  Str.containsb s t = true <-> Str.contains s t.
Proof.
  induction s as [|c s IH].
  - cbn [Str.containsb]. rewrite orb_false_r, prefix_app. split.
    + intros (post & E). now exists "", post.
    + intros ([|x pre] & post & E); simpl in E; [now exists post | discriminate].
  - cbn [Str.containsb]. rewrite orb_true_iff, IH, prefix_app. split.
    + intros [(post & E) | (pre & post & E)].
      * now exists "", post.
      * exists (String c pre), post. simpl. now rewrite E.
    + intros ([|x pre] & post & E); simpl in E.
      * left. now exists post.
      * right. exists pre, post. congruence.
Qed.


End Occurrence.

(* ================================================================== *)
(** * Digits *)
(* ================================================================== *)

Section Digits.

Lemma forallb_append (p : ascii -> bool) (a b : string) :
  Str.forallb p (a ++ b) = Str.forallb p a && Str.forallb p b.
Proof.
  induction a as [|c a IH]; simpl; [reflexivity|].
  now rewrite IH, andb_assoc.
Qed.

Lemma forallb_repeat (p : ascii -> bool) (c : ascii) (n : nat) :
  p c = true -> Str.forallb p (Str.repeat c n) = true.
Proof. intro H. induction n as [|n IH]; simpl; [reflexivity | now rewrite H, IH]. Qed.

Lemma length_repeat (c : ascii) (n : nat) : String.length (Str.repeat c n) = n.
Proof. induction n as [|n IH]; simpl; [reflexivity | now rewrite IH]. Qed.

Lemma length_drop (n : nat) (s : string) :
  String.length (Str.drop n s) = (String.length s - n)%nat.
Proof.
  revert s; induction n as [|n IH]; intros [|c s]; simpl; try reflexivity.
  apply IH.
Qed.

Lemma forallb_take (p : ascii -> bool) (n : nat) (s : string) :
  Str.forallb p s = true -> Str.forallb p (Str.take n s) = true.
Proof.
  revert s; induction n as [|n IH]; intros [|c s]; simpl; try reflexivity.
  intros [Hc Hs]%andb_prop. now rewrite Hc, IH.
Qed.

Lemma forallb_drop (p : ascii -> bool) (n : nat) (s : string) :
  Str.forallb p s = true -> Str.forallb p (Str.drop n s) = true.
Proof.
  revert s; induction n as [|n IH]; intros [|c s]; simpl; try reflexivity;
    try (intro H; exact H).
  intros [Hc Hs]%andb_prop. now apply IH.
Qed.

Lemma take_not_empty (n : nat) (s : string) :
  (0 < n)%nat -> s <> "" -> Str.take n s <> "".
Proof. destruct n, s; simpl; intros; try lia; congruence. Qed.

Lemma digits_of_uint (d : Decimal.uint) :
  Str.forallb is_digit (NilEmpty.string_of_uint d) = true.
Proof. induction d; simpl; try reflexivity; exact IHd. Qed.

Lemma decimal_digits (n : Z) : Str.forallb is_digit (decimal n) = true.
Proof.
  unfold decimal, NilZero.string_of_uint.
  destruct (N.to_uint (Z.to_N n)) eqn:E; try reflexivity;
    rewrite <- E; apply digits_of_uint.
Qed.

Lemma decimal_not_empty (n : Z) : decimal n <> "".
Proof.
  unfold decimal, NilZero.string_of_uint.
  destruct (N.to_uint (Z.to_N n)); simpl; discriminate.
Qed.

(** [round_scaled] is the value times [10^f] rounded to the nearest
    integer, halves going up: with [num/den] the value,
    [n - 1/2 <= num/den * 10^f < n + 1/2]. *)
Lemma round_scaled_nearest (m : positive) (e : Z) (f : nat) :
  let n := round_scaled m e f in
  let num := fst (fraction m e) in
  let den := snd (fraction m e) in
  0 < den /\
  2 * n * den - den <= 2 * num * 10 ^ Z.of_nat f < 2 * n * den + den.
Proof.
  unfold round_scaled, fraction.
  destruct (Z.leb_spec 0 e) as [He|He]; cbn [fst snd].
  - split; lia.
  - assert (HD : 0 < 2 ^ (- e)) by (apply Z.pow_pos_nonneg; lia).
    replace (2 ^ (1 - e)) with (2 * 2 ^ (- e))
      by (replace (1 - e) with (Z.succ (- e)) by lia; now rewrite Z.pow_succ_r by lia).
    set (D := 2 ^ (- e)) in *. set (p := Zpos m * 10 ^ Z.of_nat f).
    split; [exact HD|].
    pose proof (Z.div_mod (2 * p + D) (2 * D) ltac:(lia)) as Hdm.
    pose proof (Z.mod_pos_bound (2 * p + D) (2 * D) ltac:(lia)) as Hmod.
    set (q := (2 * p + D) / (2 * D)) in *. nia.
Qed.

(** The digits written by [toFixed] for the scaled integer [n]. *)
Lemma fixed_digits_format (n : Z) (f : nat) :
  (0 < f)%nat ->
  exists int frac,
    fixed_digits n f = int ++ "." ++ frac /\
    int <> "" /\
    Str.forallb is_digit int = true /\
    Str.forallb is_digit frac = true /\
    String.length frac = f.
Proof.
  intro Hf. unfold fixed_digits. destruct f as [|f]; [lia|].
  set (m := decimal n).
  set (m' := if (String.length m <=? S f)%nat
             then Str.repeat "0" (S f + 1 - String.length m) ++ m else m).
  assert (Hd : Str.forallb is_digit m' = true).
  { unfold m'. destruct (String.length m <=? S f)%nat.
    - rewrite forallb_append, forallb_repeat by reflexivity. apply decimal_digits.
    - apply decimal_digits. }
  assert (Hl : (S f < String.length m')%nat).
  { unfold m'. destruct (Nat.leb_spec (String.length m) (S f)).
    - rewrite length_append, length_repeat. 
      assert (Hm : (0 < String.length m)%nat).
      { pose proof (decimal_not_empty n) as Hne. fold m in Hne.
        destruct m; simpl; [congruence|lia]. }
      lia.
    - lia. }
  exists (Str.take (String.length m' - S f) m'), (Str.drop (String.length m' - S f) m').
  split; [reflexivity|]. repeat split.
  - apply take_not_empty; [lia|]. destruct m'; simpl in *; [lia|congruence].
  - now apply forallb_take.
  - now apply forallb_drop.
  - rewrite length_drop. lia.
Qed.

(** In the plain range [toFixed] writes an optional sign, digits, a
    point and exactly [f] digits. *)
Lemma toFixed_has_decimals (x : number) (f : nat) :
  (0 < f)%nat -> plain_range x = true -> has_decimals f (toFixed x f).
Proof.
  intros Hf Hx. destruct x as [s|s| |s m e]; try discriminate; simpl in *.
  - destruct (fixed_digits_format 0 f Hf) as (int & frac & E & H).
    exists "", int, frac. rewrite E. split; [reflexivity|]. split; [now left|exact H].
  - rewrite Hx.
    destruct (fixed_digits_format (round_scaled m e f) f Hf) as (int & frac & E & H).
    exists (if s then "-" else ""), int, frac. rewrite E.
    split; [reflexivity|]. split; [destruct s; auto | exact H].
Qed.

End Digits.

(* ================================================================== *)
(** * Rounding: a bound on the product *)
(* ================================================================== *)

Section Rounding.

Lemma digits2_pos_bounds (m : positive) :
  2 ^ (Zpos (digits2_pos m) - 1) <= Zpos m < 2 ^ Zpos (digits2_pos m).
Proof.
  induction m as [m IH|m IH|]; cbn [digits2_pos].
  - rewrite Pos2Z.inj_succ.
    replace (Z.succ (Zpos (digits2_pos m)) - 1) with (Z.succ (Zpos (digits2_pos m) - 1)) by lia.
    rewrite !Z.pow_succ_r by lia. lia.
  - rewrite Pos2Z.inj_succ.
    replace (Z.succ (Zpos (digits2_pos m)) - 1) with (Z.succ (Zpos (digits2_pos m) - 1)) by lia.
    rewrite !Z.pow_succ_r by lia. lia.
  - simpl. lia.
Qed.

Lemma shr_1_m (mrs : shr_record) :
  0 <= shr_m mrs -> shr_m (shr_1 mrs) = shr_m mrs / 2.
Proof.
  destruct mrs as [m r s]. cbn [shr_m]. intro H.
  rewrite <- Z.div2_div.
  destruct m as [|[p|p|]|p]; try reflexivity. lia.
Qed.

Lemma pow2_xO (p : positive) : 2 ^ Zpos p~0 = 2 ^ Zpos p * 2 ^ Zpos p.
Proof.
  change (Zpos p~0) with (2 * Zpos p). replace (2 * Zpos p) with (Zpos p + Zpos p) by lia.
  apply Z.pow_add_r; lia.
Qed.

Lemma pow2_xI (p : positive) : 2 ^ Zpos p~1 = 2 * (2 ^ Zpos p * 2 ^ Zpos p).
Proof.
  change (Zpos p~1) with (2 * Zpos p + 1). replace (2 * Zpos p + 1) with (Z.succ (Zpos p + Zpos p)) by lia.
  rewrite Z.pow_succ_r, Z.pow_add_r by lia. reflexivity.
Qed.

Lemma iter_shr_1_m (p : positive) :
  forall mrs, 0 <= shr_m mrs ->
    shr_m (iter_pos shr_1 p mrs) = shr_m mrs / 2 ^ Zpos p.
Proof.
  induction p as [p IH|p IH|]; intros mrs H; cbn [iter_pos].
  - assert (H1 : 0 <= shr_m (shr_1 mrs)) by (rewrite shr_1_m by assumption; apply Z.div_pos; lia).
    assert (H2 : 0 <= shr_m (iter_pos shr_1 p (shr_1 mrs)))
      by (rewrite IH by assumption; apply Z.div_pos; lia).
    rewrite IH, IH, shr_1_m by assumption.
    rewrite !Z.div_div by lia. now rewrite pow2_xI.
  - assert (H2 : 0 <= shr_m (iter_pos shr_1 p mrs))
      by (rewrite IH by assumption; apply Z.div_pos; lia).
    rewrite IH, IH by assumption.
    rewrite !Z.div_div by lia. now rewrite pow2_xO.
  - rewrite shr_1_m by assumption. reflexivity.
Qed.

(** Shifting right keeps the mantissa non-negative and does not increase
    the value. *)
Lemma shr_bound (mrs : shr_record) (e n : Z) :
  0 <= shr_m mrs ->
  0 <= shr_m (fst (shr mrs e n)) /\
  snd (shr mrs e n) = e + Z.max 0 n /\
  shr_m (fst (shr mrs e n)) * 2 ^ Z.max 0 n <= shr_m mrs.
Proof.
  intro H. destruct n as [|p|p]; cbn [shr fst snd].
  - rewrite Z.max_l by lia. rewrite Z.pow_0_r. lia.
  - rewrite Z.max_r by lia. rewrite iter_shr_1_m by assumption.
    assert (0 < 2 ^ Zpos p) by (apply Z.pow_pos_nonneg; lia).
    split; [apply Z.div_pos; lia|]. split; [reflexivity|].
    rewrite Z.mul_comm. apply Z.mul_div_le. lia.
  - rewrite Z.max_l by lia. rewrite Z.pow_0_r. lia.
Qed.




Lemma round_exact_bound (s : bool) (M : positive) (E : Z) :
  let e1 := Z.max E (fexp Num.prec Num.emax (Zpos (digits2_pos M) + E)) in
  match binary_round_aux Num.prec Num.emax s (Zpos M) E loc_Exact with
  | S754_nan => False
  | S754_zero _ => True
  | S754_infinity _ =>
      exists m e, Num.emax - Num.prec < e /\ E <= e /\
                  Zpos m * 2 ^ (e - E) <= Zpos M + 2 ^ (e1 - E)
  | S754_finite _ m e =>
      e <= Num.emax - Num.prec /\ E <= e /\ Zpos m * 2 ^ (e - E) <= Zpos M + 2 ^ (e1 - E)
  end.
Proof.
  intro e1. unfold binary_round_aux, shr_fexp.
  change (Zdigits2 (Zpos M)) with (Zpos (digits2_pos M)).
  cbn [shr_record_of_loc].
  set (n1 := fexp Num.prec Num.emax (Zpos (digits2_pos M) + E) - E).
  destruct (shr_bound {| shr_m := Zpos M; shr_r := false; shr_s := false |} E n1)
    as (H1 & H2 & H3); [cbn; lia|].
  destruct (shr _ E n1) as [mrs1 ea] eqn:E1. cbn [fst snd shr_m] in *.
  set (m1 := round_nearest_even (shr_m mrs1) (loc_of_shr_record mrs1)).
  assert (Hm1 : 0 <= m1 <= shr_m mrs1 + 1).
  { unfold m1, round_nearest_even.
    destruct (loc_of_shr_record mrs1) as [|[| |]]; try lia.
    destruct (Z.even (shr_m mrs1)); lia. }
  fold m1.
  set (n2 := fexp Num.prec Num.emax (Zdigits2 m1 + ea) - ea).
  destruct (shr_bound {| shr_m := m1; shr_r := false; shr_s := false |} ea n2)
    as (H4 & H5 & H6); [cbn; lia|].
  destruct (shr _ ea n2) as [mrs2 eb] eqn:E2. cbn [fst snd shr_m shr_record_of_loc] in *.
  assert (He1 : ea = e1) by (unfold e1, n1 in *; lia).
  assert (Hb : shr_m mrs2 * 2 ^ (eb - E) <= Zpos M + 2 ^ (e1 - E)).
  { replace (eb - E) with (Z.max 0 n2 + Z.max 0 n1) by lia.
    replace (e1 - E) with (Z.max 0 n1) by lia.
    rewrite Z.pow_add_r by lia.
    assert (0 < 2 ^ Z.max 0 n1) by (apply Z.pow_pos_nonneg; lia).
    assert (0 <= 2 ^ Z.max 0 n2) by (apply Z.pow_nonneg; lia).
    nia. }
  destruct (shr_m mrs2) as [|m|m] eqn:Em; [exact I| |lia].
  destruct (Z.leb_spec eb (Num.emax - Num.prec)).
  - repeat split; [assumption|lia|exact Hb].
  - exists m, eb. repeat split; [lia|lia|exact Hb].
Qed.


Lemma hundred : of_Z 100 = S754_finite false 7036874417766400 (-46).
Proof. reflexivity. Qed.

Lemma is_fraction_bound (m : positive) (e : Z) :
  is_fraction (S754_finite false m e) = true ->
  e <= 0 /\ Zpos m <= 2 ^ (- e).
Proof.
  cbn [is_fraction]. unfold fraction.
  destruct (Z.leb_spec 0 e) as [He|He]; intro H; apply Z.leb_le in H.
  - assert (1 <= 2 ^ e) by (apply Z.pow_le_mono_r with (b := 0) (c := e) (a := 2); lia).
    assert (e = 0).
    { destruct (Z.eq_dec e 0) as [|Hne]; [assumption|].
      assert (2 ^ 1 <= 2 ^ e) by (apply Z.pow_le_mono_r; lia).
      rewrite Z.pow_1_r in *. nia. }
    subst e. simpl in *. lia.
  - split; [lia | exact H].
Qed.

(** A fraction times one hundred is in the plain range. *)
Lemma fraction_percent_plain (x : number) :
  is_fraction x = true -> plain_range (mul x (of_Z 100)) = true.
Proof.
  intro Hx. rewrite hundred.
  destruct x as [s|s| |s m e]; try discriminate.
  - reflexivity.
  - destruct s; [discriminate|].
    destruct (is_fraction_bound m e Hx) as (He & Hm).
    unfold mul. cbn [SFmul xorb].
    pose proof (round_exact_bound false (m * 7036874417766400) (e + -46)) as Hb.
    pose proof (digits2_pos_bounds (m * 7036874417766400)) as Hd.
    set (d := Zpos (digits2_pos (m * 7036874417766400))) in *.
    set (k := - e) in *.
    assert (Hk : 0 <= k) by lia.
    assert (Hp : 0 < 2 ^ k) by (apply Z.pow_pos_nonneg; lia).
    assert (HM : Zpos (m * 7036874417766400) <= 100 * 2 ^ (k + 46)).
    { rewrite Pos2Z.inj_mul, Z.pow_add_r by lia.
      change (2 ^ 46) with 70368744177664. nia. }
    assert (Hd7 : d + (e + -46) <= 7).
    { assert (Hlt : 2 ^ (d - 1) < 2 ^ (7 + (k + 46))).
      { rewrite (Z.pow_add_r 2 7) by lia. change (2 ^ 7) with 128.
        assert (0 < 2 ^ (k + 46)) by (apply Z.pow_pos_nonneg; lia). lia. }
      apply Z.pow_lt_mono_r_iff in Hlt; lia. }
    assert (He1 : Z.max (e + -46) (fexp prec emax (d + (e + -46))) - (e + -46) <= k).
    { unfold fexp, emin, prec, emax. lia. }
    cbv zeta in Hb.
    assert (Hpow : 2 ^ (Z.max (e + -46) (fexp prec emax (d + (e + -46))) - (e + -46))
                   <= 2 ^ k).
    { apply Z.pow_le_mono_r; lia. }
    set (w := 2 ^ (Z.max (e + -46) (fexp prec emax (d + (e + -46))) - (e + -46))) in *.
    assert (H46 : 2 ^ (k + 46) = 2 ^ k * 70368744177664).
    { rewrite Z.pow_add_r by lia. reflexivity. }
    destruct (binary_round_aux prec emax false (Zpos (m * 7036874417766400)) (e + -46)
                loc_Exact) as [s'|s'| |s' m' e'].
    + reflexivity.
    + exfalso. destruct Hb as (m' & e' & Hbig & Hle & Hb).
      unfold emax, prec in Hbig.
      replace (e' - (e + -46)) with (e' + (k + 46)) in Hb by lia.
      rewrite Z.pow_add_r in Hb by lia.
      assert (H7 : 2 ^ 7 <= 2 ^ e') by (apply Z.pow_le_mono_r; lia).
      change (2 ^ 7) with 128 in H7.
      set (P := 2 ^ e') in *. set (A := 2 ^ (k + 46)) in *. set (K := 2 ^ k) in *.
      assert (128 * A <= P * A) by nia.
      assert (1 * (P * A) <= Zpos m' * (P * A)) by (apply Z.mul_le_mono_nonneg_r; lia).
      lia.
    + destruct Hb.
    + destruct Hb as (_ & Hle & Hb).
      cbn [plain_range]. unfold lt_1e21, fraction.
      change (10 ^ 21) with 1000000000000000000000.
      destruct (Z.leb_spec 0 e') as [Hpos|Hneg]; apply Z.ltb_lt.
      * replace (e' - (e + -46)) with (e' + (k + 46)) in Hb by lia.
        rewrite Z.pow_add_r in Hb by lia.
        assert (HP : 0 < 2 ^ e') by (apply Z.pow_pos_nonneg; lia).
        set (P := 2 ^ e') in *. set (A := 2 ^ (k + 46)) in *. set (K := 2 ^ k) in *.
        assert (HA : 0 < A) by lia.
        assert (Hle' : Zpos m' * P * A <= 101 * A) by lia.
        assert (Zpos m' * P <= 101) by nia.
        lia.
      * assert (Hs : 2 ^ (k + 46) = 2 ^ (e' - (e + -46)) * 2 ^ (- e')).
        { rewrite <- Z.pow_add_r by lia. f_equal. lia. }
        assert (HQ : 0 < 2 ^ (e' - (e + -46))) by (apply Z.pow_pos_nonneg; lia).
        assert (HR : 0 < 2 ^ (- e')) by (apply Z.pow_pos_nonneg; lia).
        set (Q := 2 ^ (e' - (e + -46))) in *. set (R := 2 ^ (- e')) in *.
        set (A := 2 ^ (k + 46)) in *. set (K := 2 ^ k) in *.
        assert (Hle' : Zpos m' * Q <= 101 * R * Q) by lia.
        assert (Zpos m' <= 101 * R) by nia.
        lia.
Qed.

Lemma is_fraction_plain (x : number) : is_fraction x = true -> plain_range x = true.
Proof.
  destruct x as [s|s| |[|] m e]; try discriminate; [reflexivity|].
  cbn [is_fraction plain_range]. unfold lt_1e21, fraction.
  change (10 ^ 21) with 1000000000000000000000.
  destruct (Z.leb_spec 0 e) as [He|He]; intro H; apply Z.leb_le in H; apply Z.ltb_lt.
  - lia.
  - assert (0 < 2 ^ (- e)) by (apply Z.pow_pos_nonneg; lia). lia.
Qed.

End Rounding.

(* ================================================================== *)
(** * Rendering a well-shaped answer *)
(* ================================================================== *)

Section Rendering.








Lemma metrics_markup_ok (m : value) (mt : Metrics) :
  is_Metrics m mt -> metrics_markup m = Normal (metrics_of mt).
Proof.
  intros (Hb & Hc & Hl & Hn & Ht). unfold field in *.
  unfold metrics_markup. rewrite Hb, Hc, Hl, Hn, Ht. reflexivity.
Qed.


Lemma metrics_value_ok (m : Metrics) : is_Metrics (metrics_value m) m.
Proof. repeat split. Qed.




Lemma renderMetrics_assigns (m : value) (h : string) (pg : page) :
  metrics_markup m = Normal h ->
  renderMetrics m pg = set_metricsContainer_innerHTML h pg.
Proof. intro H. unfold renderMetrics, bind, lift. now rewrite H. Qed.

Lemma renderResults_throws (d : value) (e : exn) (pg : page) :
  results_markup d = Throw e -> renderResults d pg = (pg, Throw e).
Proof. intro H. unfold renderResults, bind, lift. now rewrite H. Qed.

Lemma renderMetrics_throws (m : value) (e : exn) (pg : page) :
  metrics_markup m = Throw e -> renderMetrics m pg = (pg, Throw e).
Proof. intro H. unfold renderMetrics, bind, lift. now rewrite H. Qed.

End Rendering.

(* ================================================================== *)
(** * The views are told apart *)
(* ================================================================== *)

Section Views.

Lemma results_markup_shape (d : value) (h : string) :
  results_markup d = Normal h ->
  exists name original norm ragList translated,
    h = results_view name original norm ragList translated.
Proof.
  unfold results_markup.
  destruct (norm_of d) as [norm|]; cbn [cbind]; [|discriminate].
  destruct (ragList_of d) as [rag|]; cbn [cbind]; [|discriminate].
  destruct (Get d "detected_language_name") as [v1|]; cbn [cbind]; [|discriminate].
  destruct (ToString v1) as [s1|]; cbn [cbind]; [|discriminate].
  destruct (Get d "original_text") as [v2|]; cbn [cbind]; [|discriminate].
  destruct (ToString v2) as [s2|]; cbn [cbind]; [|discriminate].
  destruct (Get d "translated_text") as [v3|]; cbn [cbind]; [|discriminate].
  destruct (ToString v3) as [s3|]; cbn [cbind]; [|discriminate].
  intros [= <-]. now exists s1, s2, norm, rag, s3.
Qed.

Lemma metrics_markup_shape (m : value) (h : string) :
  metrics_markup m = Normal h ->
  exists bleu comet latency nep tox, h = metrics_view bleu comet latency nep tox.
Proof.
  unfold metrics_markup.
  destruct (Get m "bleu") as [v1|]; cbn [cbind]; [|discriminate].
  destruct (ToString v1) as [s1|]; cbn [cbind]; [|discriminate].
  destruct (Get m "comet") as [v2|]; cbn [cbind]; [|discriminate].
  destruct (ToString v2) as [s2|]; cbn [cbind]; [|discriminate].
  destruct (Get m "latency_ms") as [v3|]; cbn [cbind]; [|discriminate].
  destruct (ToString v3) as [s3|]; cbn [cbind]; [|discriminate].
  destruct (Get m "named_entity_preservation") as [v4|]; cbn [cbind]; [|discriminate].
  destruct (percent v4) as [s4|]; cbn [cbind]; [|discriminate].
  destruct (Get m "toxicity_leakage") as [v5|]; cbn [cbind]; [|discriminate].
  destruct (percent v5) as [s5|]; cbn [cbind]; [|discriminate].
  intros [= <-]. now exists s1, s2, s3, s4, s5.
Qed.

(** A results view is neither the error view nor the loading view. *)
Lemma results_view_apart (a b c d e : string) :
  results_view a b c d e <> error_view /\ results_view a b c d e <> loading_view.
Proof.
  split; intro H; apply (f_equal (Str.take 20)) in H; vm_compute in H; discriminate.
Qed.

(** A metrics view is neither the Failed label nor the placeholder. *)
Lemma metrics_view_apart (a b c d e : string) :
  metrics_view a b c d e <> failed_view /\ metrics_view a b c d e <> calculating_view.
Proof.
  split; intro H; apply (f_equal (Str.take 20)) in H; vm_compute in H; discriminate.
Qed.

Lemma error_views_not_loading :
  error_view <> loading_view /\ failed_view <> calculating_view.
Proof. split; intro H; vm_compute in H; discriminate. Qed.

(** The two outcomes of a run exclude each other, and neither leaves a
    loading indicator behind. *)
Lemma success_views_not_error (data : value) (pg : page) :
  success_views data pg ->
  ~ error_views pg /\
  resultsContainer_innerHTML pg <> loading_view /\
  metricsContainer_innerHTML pg <> calculating_view.
Proof.
  intros (Hr & Hm).
  destruct (results_markup_shape _ _ Hr) as (a & b & c & d & e & Ea).
  destruct (Get data "metrics") as [m|]; cbn [cbind] in Hm; [|discriminate].
  destruct (metrics_markup_shape _ _ Hm) as (a' & b' & c' & d' & e' & Eb).
  rewrite Ea, Eb. repeat split.
  - intros (H1 & _). rewrite Ea in H1. now apply results_view_apart in H1.
  - apply results_view_apart.
  - apply metrics_view_apart.
Qed.

Lemma error_views_not_stale (pg : page) :
  error_views pg ->
  resultsContainer_innerHTML pg <> loading_view /\
  metricsContainer_innerHTML pg <> calculating_view.
Proof. intros (-> & ->). apply error_views_not_loading. Qed.

End Views.

(* ================================================================== *)
(** * Answers that do not render *)
(* ================================================================== *)

Section Malformed.

Lemma render_item_bad_score (i : nat) (r : value) :
  (forall x, Get r "score" <> Normal (JNum x)) ->
  exists e, render_item i r = Throw e.
Proof.
  intro Hs. unfold render_item.
  destruct (Get r "domain") as [v1|e1]; cbn [cbind]; [|now eexists].
  destruct (ToString v1) as [s1|e1]; cbn [cbind]; [|now eexists].
  destruct (Get r "lang") as [v2|e2]; cbn [cbind]; [|now eexists].
  destruct (ToString v2) as [s2|e2]; cbn [cbind]; [|now eexists].
  destruct (Get r "score") as [v3|e3] eqn:E3; cbn [cbind]; [|now eexists].
  destruct v3 as [| |b|x|s|l|fs]; cbn [call_toFixed cbind]; try (now eexists).
  now destruct (Hs x).
Qed.

Lemma map_items_bad_score (items : list value) (r : value) :
  In r items ->
  (forall x, Get r "score" <> Normal (JNum x)) ->
  forall i, exists e, map_items i items = Throw e.
Proof.
  intros Hin Hs. induction items as [|r0 items IH]; intro i; [destruct Hin|].
  cbn [map_items]. destruct Hin as [-> | Hin].
  - destruct (render_item_bad_score i r Hs) as (e & ->). now eexists.
  - destruct (render_item i r0) as [h|e]; cbn [cbind]; [|now eexists].
    destruct (IH Hin (S i)) as (e & ->). now eexists.
Qed.

(** An item whose [score] is not a number: [renderResults] throws and
    leaves the page as it was. *)
Lemma renderResults_bad_score (d : value) (items : list value) (r : value) (pg : page) :
  Get d "retrieved_items" = Normal (JArr items) ->
  In r items ->
  (forall x, Get r "score" <> Normal (JNum x)) ->
  exists e, results_markup d = Throw e /\ renderResults d pg = (pg, Throw e).
Proof.
  intros Hg Hin Hs.
  assert (H : exists e, results_markup d = Throw e).
  { unfold results_markup.
    destruct (norm_of d) as [norm|e]; cbn [cbind]; [|now eexists].
    unfold ragList_of. rewrite Hg. cbn [cbind items_or_empty ToBoolean].
    destruct (map_items_bad_score items r Hin Hs 0) as (e & ->). now eexists. }
  destruct H as (e & He). exists e. split; [exact He | now apply renderResults_throws].
Qed.

(** No [metrics] object: [renderMetrics] throws and leaves the page as
    it was. *)
Lemma renderMetrics_missing (d : value) (pg : page) :
  Get d "metrics" = Normal JUndefined \/ Get d "metrics" = Normal JNull ->
  exists e,
    cbind (Get d "metrics") metrics_markup = Throw e /\
    (forall m, Get d "metrics" = Normal m -> renderMetrics m pg = (pg, Throw e)).
Proof.
  intros [H | H]; rewrite H; eexists; (split; [reflexivity|]);
    intros m [= <-]; now apply renderMetrics_throws.
Qed.

End Malformed.

(* ================================================================== *)
(** * The handler *)
(* ================================================================== *)

Section HandlerFacts.

Variable server : request -> completion response.

Ltac run_handler :=
  cbv beta iota zeta delta
    [handleProcess bind read try_catch fetch send lift throw ret
     renderResults renderMetrics set_resultsContainer_innerHTML
     set_metricsContainer_innerHTML console_error focus views_of cbind
     request_of error_views fst snd
     textInput_value targetLangSelect_value resultsContainer_innerHTML
     metricsContainer_innerHTML activeElement console network].

(** A text of white space only is empty once trimmed. *)
Lemma trim_all_ws (s : string) : all_ws s = true -> trim s = "".
Proof.
  unfold all_ws, trim. intro H. apply is_empty_true in H. now rewrite H.
Qed.

Lemma handleProcess_blank (pg : page) :
  trim (textInput_value pg) = "" ->
  handleProcess server pg = focus textInput pg.
Proof.
  intro H. unfold handleProcess, bind, read. rewrite H. reflexivity.
Qed.

(** A run with a non-blank text: one request, and the two regions set
    together from what the request settled to. *)
Lemma handleProcess_run (pg : page) :
  trim (textInput_value pg) <> "" ->
  snd (handleProcess server pg) = Normal tt /\
  network (fst (handleProcess server pg)) = (network pg ++ [request_of pg])%list /\
  textInput_value (fst (handleProcess server pg)) = textInput_value pg /\
  targetLangSelect_value (fst (handleProcess server pg)) = targetLangSelect_value pg /\
  activeElement (fst (handleProcess server pg)) = activeElement pg /\
  match views_of (server (request_of pg)) with
  | Normal (rh, mh) =>
      resultsContainer_innerHTML (fst (handleProcess server pg)) = rh /\
      metricsContainer_innerHTML (fst (handleProcess server pg)) = mh /\
      console (fst (handleProcess server pg)) = console pg
  | Throw e =>
      error_views (fst (handleProcess server pg)) /\
      console (fst (handleProcess server pg)) = (console pg ++ [e])%list
  end.
Proof.
  intro H. apply is_empty_false in H.
  destruct pg as [tv lv rh0 mh0 ae cs nw].
  cbv beta iota delta [textInput_value] in H.
  run_handler. rewrite H.
  destruct (server _) as [res|e]; [|repeat split].
  destruct (negb (ok res)); [repeat split|].
  destruct (json res) as [data|e]; [|repeat split].
  destruct (results_markup data) as [rh|e]; [|repeat split].
  destruct (Get data "metrics") as [m|e]; [|repeat split].
  destruct (metrics_markup m) as [mh|e]; repeat split.
Qed.

End HandlerFacts.

(* ================================================================== *)
(** * The request *)
(* ================================================================== *)

Section Request.

Lemma read_chars_quote_char (c : ascii) (t : string) :
  read_chars (quote_char c ++ t)
  = option_map (fun tr => (String c (fst tr), snd tr)) (read_chars t).
Proof.
  destruct c as [[|] [|] [|] [|] [|] [|] [|] [|]]; reflexivity.
Qed.

Lemma read_chars_quote (s rest : string) :
  read_chars (quote_chars s ++ String (ascii_of_N 34) rest) = Some (s, rest).
Proof.
  induction s as [|c s IH].
  - reflexivity.
  - cbn [quote_chars]. rewrite append_assoc, read_chars_quote_char, IH. reflexivity.
Qed.

Lemma expect_app (p s : string) : expect p (p ++ s) = Some s.
Proof.
  induction p as [|a p IH]; simpl; [reflexivity|].
  now rewrite Ascii.eqb_refl.
Qed.

Lemma stringify_payload (text target_lang : string) :
  JSON_stringify (JObj [("text", JStr text); ("target_lang", JStr target_lang)])
  = Some (payload_text text target_lang).
Proof.
  unfold JSON_stringify, payload_text. cbn [SerializeJSONProperty String.concat].
  f_equal. unfold QuoteJSONString. rewrite !append_assoc. reflexivity.
Qed.

Lemma read_payload_text (text target_lang : string) :
  read_payload (payload_text text target_lang) = Some (text, target_lang).
Proof.
  unfold read_payload, payload_text.
  rewrite expect_app.
  change (tpl "`,`target_lang`:`" ++ quote_chars target_lang ++ tpl "`}")
    with (String (ascii_of_N 34)
            (tpl ",`target_lang`:`" ++
             quote_chars target_lang ++ String (ascii_of_N 34) "}")).
  rewrite read_chars_quote, expect_app, read_chars_quote. reflexivity.
Qed.

End Request.

(* ================================================================== *)
(** * Properties of the submit operation *)
(* ================================================================== *)

Section Submit.

Variable server : request -> completion response.

(** C1. A text that is not empty once trimmed: the handler sends exactly
    one request, a POST to /api/process on the fixed origin with the
    JSON content type, whose body is the JSON text of an object with the
    trimmed text as [text] and the selection's value, whatever it is, as
    [target_lang]. *)
Theorem submit_posts_once (pg : page) :
  trim (textInput_value pg) <> "" ->
  exists req b,
    network (fst (handleProcess server pg)) = (network pg ++ [req])%list /\
    url req = "http://127.0.0.1:5000/api/process" /\
    method req = "POST" /\
    headers req = [("Content-Type", "application/json")] /\
    body req = Some b /\
    JSON_stringify (JObj [("text", JStr (trim (textInput_value pg)));
                          ("target_lang", JStr (targetLangSelect_value pg))])
      = Some b /\
    read_payload b = Some (trim (textInput_value pg), targetLangSelect_value pg).
Proof.
  intro H.
  destruct (handleProcess_run server pg H) as (_ & Hn & _).
  exists (request_of pg),
         (payload_text (trim (textInput_value pg)) (targetLangSelect_value pg)).
  split; [exact Hn|].
  repeat split.
  - unfold request_of, process_request. cbn [body]. apply stringify_payload.
  - apply stringify_payload.
  - apply read_payload_text.
Qed.

(** C3. A text that is empty once trimmed: the handler returns without
    sending anything, the two display regions and the console are left
    as they were, and the text field has the focus. *)
Theorem submit_blank_is_noop (pg : page) :
  trim (textInput_value pg) = "" ->
  snd (handleProcess server pg) = Normal tt /\
  network (fst (handleProcess server pg)) = network pg /\
  console (fst (handleProcess server pg)) = console pg /\
  resultsContainer_innerHTML (fst (handleProcess server pg))
    = resultsContainer_innerHTML pg /\
  metricsContainer_innerHTML (fst (handleProcess server pg))
    = metricsContainer_innerHTML pg /\
  activeElement (fst (handleProcess server pg)) = Some textInput.
Proof.
  intro H. rewrite (handleProcess_blank server pg H).
  repeat split.
Qed.

(** C2. Whatever the failure of the submit operation (the transport
    rejects, the status is not ok, the body does not parse), the results
    region shows the backend-error message, the metrics region shows the
    Failed label, the exception is logged, and the handler completes
    normally. *)
Theorem submit_failure_absorbed (pg : page) (e : exn) :
  trim (textInput_value pg) <> "" ->
  failure (server (request_of pg)) e ->
  snd (handleProcess server pg) = Normal tt /\
  resultsContainer_innerHTML (fst (handleProcess server pg)) = error_view /\
  metricsContainer_innerHTML (fst (handleProcess server pg)) = failed_view /\
  console (fst (handleProcess server pg)) = (console pg ++ [e])%list.
Proof.
  intros H Hf.
  destruct (handleProcess_run server pg H) as (Hc & _ & _ & _ & _ & Hv).
  assert (Hthrow : views_of (server (request_of pg)) = Throw e).
  { inversion Hf as [e' Hs | res Hok Hs | res e' Hok Hj Hs]; subst;
      unfold views_of; simpl.
    - reflexivity.
    - rewrite Hok. reflexivity.
    - rewrite Hok, Hj. reflexivity. }
  rewrite Hthrow in Hv. destruct Hv as ((Hr & Hm) & Hl).
  repeat split; assumption.
Qed.

(** C4. A run that reaches the network ends with both regions showing
    the views of one and the same parsed answer, or with both showing
    the error views; the loading indicator and the placeholder that the
    run put up are gone from both. *)
Theorem submit_renders_atomically (pg : page) :
  trim (textInput_value pg) <> "" ->
  ((exists res data,
       server (request_of pg) = Normal res /\ ok res = true /\
       json res = Normal data /\
       success_views data (fst (handleProcess server pg)))
   \/ error_views (fst (handleProcess server pg))) /\
  resultsContainer_innerHTML (fst (handleProcess server pg)) <> loading_view /\
  metricsContainer_innerHTML (fst (handleProcess server pg)) <> calculating_view.
Proof.
  intro H.
  assert (Hcases :
    (exists res data,
        server (request_of pg) = Normal res /\ ok res = true /\
        json res = Normal data /\
        success_views data (fst (handleProcess server pg)))
    \/ error_views (fst (handleProcess server pg))).
  { destruct (handleProcess_run server pg H) as (_ & _ & _ & _ & _ & Hv).
    unfold views_of in Hv.
    destruct (server (request_of pg)) as [res|e]; simpl in Hv; [|right; apply Hv].
    destruct (ok res) eqn:Hok; simpl in Hv; [|right; apply Hv].
    destruct (json res) as [data|e] eqn:Hj; simpl in Hv; [|right; apply Hv].
    destruct (results_markup data) as [rh|e] eqn:Hr; simpl in Hv; [|right; apply Hv].
    destruct (Get data "metrics") as [m|e] eqn:Hg; simpl in Hv; [|right; apply Hv].
    destruct (metrics_markup m) as [mh|e] eqn:Hm; simpl in Hv; [|right; apply Hv].
    left. exists res, data. destruct Hv as (H1 & H2 & _).
    unfold success_views. rewrite H1, H2, Hr, Hg. simpl. rewrite Hm.
    now repeat split. }
  split; [exact Hcases|].
  destruct Hcases as [(res & data & _ & _ & _ & Hs) | He].
  - apply (success_views_not_error data _ Hs).
  - now apply error_views_not_stale.
Qed.

(** C10. An ok answer whose body makes [renderResults] or
    [renderMetrics] throw ends like a backend failure: the handler
    completes normally, both regions show the error views, and the
    exception is logged.  A body without [metrics] and a body with an
    item whose [score] is not a number are such answers. *)
Theorem render_exception_gives_error_view (pg : page) (res : response) (data : value) :
  trim (textInput_value pg) <> "" ->
  server (request_of pg) = Normal res ->
  ok res = true ->
  json res = Normal data ->
  (forall e, render_throws data e ->
     snd (handleProcess server pg) = Normal tt /\
     resultsContainer_innerHTML (fst (handleProcess server pg)) = error_view /\
     metricsContainer_innerHTML (fst (handleProcess server pg)) = failed_view /\
     console (fst (handleProcess server pg)) = (console pg ++ [e])%list) /\
  (Get data "metrics" = Normal JUndefined -> exists e, render_throws data e) /\
  (forall items r,
     Get data "retrieved_items" = Normal (JArr items) ->
     In r items ->
     (forall x, Get r "score" <> Normal (JNum x)) ->
     exists e, render_throws data e).
Proof.
  intros H Hs Hok Hj. split; [|split].
  - intros e Hthrows.
    destruct (handleProcess_run server pg H) as (Hc & _ & _ & _ & _ & Hv).
    assert (Hthrow : views_of (server (request_of pg)) = Throw e).
    { unfold views_of. rewrite Hs. simpl. rewrite Hok, Hj. simpl.
      destruct Hthrows as [Hr | ((rh & Hr) & Hm)]; rewrite Hr; simpl.
      - reflexivity.
      - destruct (Get data "metrics") as [m|e']; simpl in *.
        + now rewrite Hm.
        + congruence. }
    rewrite Hthrow in Hv. destruct Hv as ((Hr & Hm) & Hl).
    repeat split; assumption.
  - intro Hm. unfold render_throws.
    destruct (results_markup data) as [rh|e] eqn:Hr.
    + eexists. right. split; [now exists rh|]. rewrite Hm. reflexivity.
    + exists e. now left.
  - intros items r Hg Hin Hscore.
    destruct (renderResults_bad_score data items r pg Hg Hin Hscore) as (e & He & _).
    exists e. now left.
Qed.

End Submit.

(* ================================================================== *)
(** * Absence from a concatenation *)
(* ================================================================== *)

Section Absence.









Lemma forallb_weaken (p q : ascii -> bool) (s : string) :
  (forall c, p c = true -> q c = true) ->
  Str.forallb p s = true -> Str.forallb q s = true.
Proof.
  intro Hpq. induction s as [|c s IH]; simpl; [reflexivity|].
  intros [Hc Hs]%andb_prop. now rewrite (Hpq c Hc), IH.
Qed.

Lemma digit_numeric (s : string) :
  Str.forallb is_digit s = true -> Str.forallb numeric_char s = true.
Proof.
  apply forallb_weaken. intros c H. unfold numeric_char. now rewrite H.
Qed.

Lemma decimal_numeric (n : Z) : Str.forallb numeric_char (decimal n) = true.
Proof. apply digit_numeric, decimal_digits. Qed.


Lemma layout_numeric (digits : string) (n k : Z) :
  Str.forallb numeric_char digits = true ->
  Str.forallb numeric_char (layout digits n k) = true.
Proof.
  intro Hd. unfold layout, exponent_part.
  repeat match goal with
         | |- context [if ?b then _ else _] => destruct b
         end;
    rewrite ?forallb_append, ?forallb_take, ?forallb_drop, ?forallb_repeat,
      ?decimal_numeric by (reflexivity || exact Hd);
    rewrite ?Hd; reflexivity.
Qed.

Lemma toString_pos_numeric (m : positive) (e : Z) :
  Str.forallb numeric_char (toString_pos m e) = true.
Proof.
  unfold toString_pos. destruct (fraction m e) as [num den].
  destruct (shortest _ _ _ _ _ _) as [[s n] k].
  apply layout_numeric, decimal_numeric.
Qed.


Lemma toString_numeric (x : number) : Str.forallb numeric_char (toString x) = true.
Proof.
  destruct x as [s|s| |s m e]; simpl; try reflexivity.
  - now destruct s.
  - rewrite forallb_append, toString_pos_numeric. now destruct s.
Qed.


End Absence.



Section ShownAndAbsent.











End ShownAndAbsent.

(* ================================================================== *)
(** * Properties of the results view *)
(* ================================================================== *)

Section ResultsView.









End ResultsView.

(* ================================================================== *)
(** * Properties of the metrics view *)
(* ================================================================== *)

Section MetricsView.

(** Each value stands in the paragraph under its label, the two
    percentages followed by the percent sign. *)
Lemma metrics_view_shows (bleu comet latency_ms nep tox : string) :
  Str.contains (metrics_view bleu comet latency_ms nep tox)
    (tpl "BLEU</p>
        <p class=`text-lg font-bold text-slate-800`>" ++ bleu ++ "</p>") /\
  Str.contains (metrics_view bleu comet latency_ms nep tox)
    (tpl "COMET</p>
        <p class=`text-lg font-bold text-slate-800`>" ++ comet ++ "</p>") /\
  Str.contains (metrics_view bleu comet latency_ms nep tox)
    (tpl "Latency</p>
        <p class=`text-lg font-bold text-slate-800`>" ++ latency_ms ++ " ms</p>") /\
  Str.contains (metrics_view bleu comet latency_ms nep tox)
    (tpl "NE Preservation</p>
        <p class=`text-lg font-bold text-slate-800`>" ++ nep ++ "%</p>") /\
  Str.contains (metrics_view bleu comet latency_ms nep tox)
    (tpl "Toxicity Leakage</p>
        <p class=`text-lg font-bold text-slate-800`>" ++ tox ++ "%</p>").
Proof.
  unfold metrics_view. repeat split; occurs.
Qed.

(** C8. For a metrics object whose five fields are numbers
    [renderMetrics] assigns the metrics view with all five: BLEU, COMET
    and the latency as the conversion of numbers to strings writes them,
    the two fractions multiplied by 100 and written by [toFixed(2)]
    before a percent sign, with exactly two decimals for a fraction
    between zero and one; 0.9567 gives 95.67 and 0.01 gives 1.00. *)
Theorem metrics_rendered (m : value) (mt : Metrics) (pg : page) :
  is_Metrics m mt ->
  let nep := toFixed (mul (named_entity_preservation mt) (of_Z 100)) 2 in
  let tox := toFixed (mul (toxicity_leakage mt) (of_Z 100)) 2 in
  let html := metrics_view (toString (bleu mt)) (toString (comet mt))
                           (toString (latency_ms mt)) nep tox in
  renderMetrics m pg = set_metricsContainer_innerHTML html pg /\
  Str.contains html (tpl "BLEU</p>
        <p class=`text-lg font-bold text-slate-800`>" ++ toString (bleu mt) ++ "</p>") /\
  Str.contains html (tpl "COMET</p>
        <p class=`text-lg font-bold text-slate-800`>" ++ toString (comet mt) ++ "</p>") /\
  Str.contains html (tpl "Latency</p>
        <p class=`text-lg font-bold text-slate-800`>" ++ toString (latency_ms mt) ++ " ms</p>") /\
  Str.contains html (tpl "NE Preservation</p>
        <p class=`text-lg font-bold text-slate-800`>" ++ nep ++ "%</p>") /\
  Str.contains html (tpl "Toxicity Leakage</p>
        <p class=`text-lg font-bold text-slate-800`>" ++ tox ++ "%</p>") /\
  (is_fraction (named_entity_preservation mt) = true -> has_decimals 2 nep) /\
  (is_fraction (toxicity_leakage mt) = true -> has_decimals 2 tox) /\
  toFixed (mul (of_decimal false 9567 (-4)) (of_Z 100)) 2 = "95.67" /\
  toFixed (mul (of_decimal false 1 (-2)) (of_Z 100)) 2 = "1.00".
Proof.
  intros H nep tox html.
  split; [exact (renderMetrics_assigns m _ pg (metrics_markup_ok m mt H))|].
  pose proof (metrics_view_shows (toString (bleu mt)) (toString (comet mt))
                (toString (latency_ms mt)) nep tox) as (H1 & H2 & H3 & H4 & H5).
  repeat split; try assumption.
  - intro Hf. apply toFixed_has_decimals; [lia | now apply fraction_percent_plain].
  - intro Hf. apply toFixed_has_decimals; [lia | now apply fraction_percent_plain].
Qed.

End MetricsView.

(* ================================================================== *)
(** * The sample runs, computed *)
(* ================================================================== *)

Section SampleRuns.

Import Sample.



Example samples_bring_no_marker :
  mentions "Normalized Input" answer_bare = false /\
  mentions "Normalized Input" answer_hello = false /\
  mentions "result-item" answer_bare = false /\
  mentions "No relevant items found." answer_bare = false.
Proof. vm_compute. repeat split. Qed.

(** A string of the answer can bring a heading or an item element
    with it, the strings being inserted as they are. *)
Example marker_brought_by_answer :
  let p := {| detected_language_name := "Hindi";
              original_text := "<i class='result-item'>Normalized Input</i>";
              normalized_text := None;
              retrieved_items := [];
              translated_text := "hello world";
              metrics := metrics_hello |} in
  Str.contains (results_of p) "result-item" /\
  Str.contains (results_of p) "Normalized Input".
Proof. split; apply containsb_spec; vm_compute; reflexivity. Qed.

Example trim_sample : trim "  namaste duniya  " = "namaste duniya".
Proof. reflexivity. Qed.

Example run_ok :
  handleProcess server_ok page_hello
  = ({| textInput_value := "  namaste duniya  ";
        targetLangSelect_value := "te";
        resultsContainer_innerHTML := results_of answer_hello;
        metricsContainer_innerHTML := metrics_of metrics_hello;
        activeElement := Some processBtn;
        console := [];
        network := [process_request "namaste duniya" "te"] |}, Normal tt).
Proof. vm_compute. reflexivity. Qed.

Example run_500 :
  handleProcess server_500 page_hello
  = ({| textInput_value := "  namaste duniya  ";
        targetLangSelect_value := "te";
        resultsContainer_innerHTML := error_view;
        metricsContainer_innerHTML := failed_view;
        activeElement := Some processBtn;
        console := [Error "HTTP 500"];
        network := [process_request "namaste duniya" "te"] |}, Normal tt).
Proof. vm_compute. reflexivity. Qed.

Example run_blank :
  handleProcess server_ok page_blank
  = ({| textInput_value := "   ";
        targetLangSelect_value := "hi";
        resultsContainer_innerHTML := "<p>Results will appear here.</p>";
        metricsContainer_innerHTML := "<p>No metrics yet.</p>";
        activeElement := Some textInput;
        console := [];
        network := [] |}, Normal tt).
Proof. vm_compute. reflexivity. Qed.

Example run_bad_score :
  exists e,
    handleProcess (answers 200 (Normal bad_score)) page_hello
    = ({| textInput_value := "  namaste duniya  ";
          targetLangSelect_value := "te";
          resultsContainer_innerHTML := error_view;
          metricsContainer_innerHTML := failed_view;
          activeElement := Some processBtn;
          console := [TypeError e];
          network := [process_request "namaste duniya" "te"] |}, Normal tt).
Proof. eexists. vm_compute. reflexivity. Qed.

Example trim_white_space :
  trim (char 9 ++ char 194 ++ char 160 ++ "duniya" ++ char 10 ++ " ") = "duniya"
  /\ all_ws (char 9 ++ char 226 ++ char 128 ++ char 168 ++ " ") = true.
Proof. vm_compute. split; reflexivity. Qed.

Example markup_not_escaped :
  Str.containsb (results_of answer_hello) "<b>duniya</b>" = true.
Proof. vm_compute. reflexivity. Qed.

Example block_present_or_not :
  Str.containsb (results_of answer_hello) "Normalized Input" = true /\
  Str.containsb (results_of answer_bare) "Normalized Input" = false.
Proof. vm_compute. split; reflexivity. Qed.

Example placeholder_or_items :
  Str.containsb (results_of answer_bare) "No relevant items found." = true /\
  Str.containsb (results_of answer_bare) "result-item" = false /\
  Str.containsb (results_of answer_hello) "No relevant items found." = false /\
  Str.containsb (results_of answer_hello) "#1 • greetings • hi • score 0.823" = true /\
  Str.containsb (results_of answer_hello) "#2 • travel • te • score 0.500" = true.
Proof. vm_compute. repeat split; reflexivity. Qed.

Example request_body_sample :
  body (process_request (tpl "namaste `duniya`") "te")
  = Some (tpl "{`text`:`namaste \`duniya\``,`target_lang`:`te`}").
Proof. vm_compute. reflexivity. Qed.

Example numbers_as_given :
  map toString [of_decimal false 325 (-1); of_decimal false 81 (-2); of_Z 120;
                of_decimal false 1 21; of_decimal false 1 (-7)]
  = ["32.5"; "0.81"; "120"; "1e+21"; "1e-7"].
Proof. vm_compute. reflexivity. Qed.

Example toFixed_samples :
  map (fun x => toFixed x 2)
      [of_decimal false 1005 (-3); of_decimal true 1 (-4); of_decimal false 1 21]
  = ["1.00"; "-0.00"; "1e+21"].
Proof. vm_compute. reflexivity. Qed.

Example to_number_samples :
  map StringToNumber [" 0.5 "; "0x10"; "1e3"; ""; "abc"; "-0"]
  = [of_decimal false 5 (-1); of_Z 16; of_Z 1000; S754_zero false; NaN;
     S754_zero true].
Proof. vm_compute. reflexivity. Qed.

End SampleRuns.

(* ================================================================== *)
(** * The theorems at the sample runs *)
(* ================================================================== *)

Section Witnesses.

Import Sample.

Lemma submit_posts_once_witness :
  trim (textInput_value page_hello) <> "" /\
  exists req b,
    network (fst (handleProcess server_ok page_hello))
      = (network page_hello ++ [req])%list /\
    url req = "http://127.0.0.1:5000/api/process" /\
    method req = "POST" /\
    headers req = [("Content-Type", "application/json")] /\
    body req = Some b /\
    JSON_stringify (JObj [("text", JStr (trim (textInput_value page_hello)));
                          ("target_lang", JStr (targetLangSelect_value page_hello))])
      = Some b /\
    read_payload b
      = Some (trim (textInput_value page_hello), targetLangSelect_value page_hello).
Proof.
  split; [vm_compute; discriminate|].
  apply (submit_posts_once server_ok page_hello). vm_compute; discriminate.
Defined.

Lemma submit_failure_absorbed_witness :
  trim (textInput_value page_hello) <> "" /\
  failure (server_500 (request_of page_hello)) (Error "HTTP 500") /\
  snd (handleProcess server_500 page_hello) = Normal tt /\
  resultsContainer_innerHTML (fst (handleProcess server_500 page_hello)) = error_view /\
  metricsContainer_innerHTML (fst (handleProcess server_500 page_hello)) = failed_view /\
  console (fst (handleProcess server_500 page_hello))
    = (console page_hello ++ [Error "HTTP 500"])%list.
Proof.
  assert (Hf : failure (server_500 (request_of page_hello)) (Error "HTTP 500")).
  { exact (status_failure
             {| status := 500; json := Normal (JObj [("error", JStr "internal")]) |}
             eq_refl). }
  split; [vm_compute; discriminate|]. split; [exact Hf|].
  apply (submit_failure_absorbed server_500 page_hello (Error "HTTP 500"));
    [vm_compute; discriminate | exact Hf].
Defined.

Lemma submit_blank_is_noop_witness :
  trim (textInput_value page_blank) = "" /\
  snd (handleProcess server_ok page_blank) = Normal tt /\
  network (fst (handleProcess server_ok page_blank)) = network page_blank /\
  console (fst (handleProcess server_ok page_blank)) = console page_blank /\
  resultsContainer_innerHTML (fst (handleProcess server_ok page_blank))
    = resultsContainer_innerHTML page_blank /\
  metricsContainer_innerHTML (fst (handleProcess server_ok page_blank))
    = metricsContainer_innerHTML page_blank /\
  activeElement (fst (handleProcess server_ok page_blank)) = Some textInput.
Proof.
  split; [reflexivity|].
  apply (submit_blank_is_noop server_ok page_blank). reflexivity.
Defined.

Lemma submit_renders_atomically_witness :
  trim (textInput_value page_hello) <> "" /\
  ((exists res data,
       server_ok (request_of page_hello) = Normal res /\ ok res = true /\
       json res = Normal data /\
       success_views data (fst (handleProcess server_ok page_hello)))
   \/ error_views (fst (handleProcess server_ok page_hello))) /\
  resultsContainer_innerHTML (fst (handleProcess server_ok page_hello)) <> loading_view /\
  metricsContainer_innerHTML (fst (handleProcess server_ok page_hello))
    <> calculating_view.
Proof.
  split; [vm_compute; discriminate|].
  apply (submit_renders_atomically server_ok page_hello). vm_compute; discriminate.
Defined.

Lemma render_exception_gives_error_view_witness :
  let server := answers 200 (Normal no_metrics) in
  let res := {| status := 200; json := Normal no_metrics |} in
  trim (textInput_value page_hello) <> "" /\
  server (request_of page_hello) = Normal res /\
  ok res = true /\
  json res = Normal no_metrics /\
  Get no_metrics "metrics" = Normal JUndefined /\
  snd (handleProcess server page_hello) = Normal tt /\
  resultsContainer_innerHTML (fst (handleProcess server page_hello)) = error_view /\
  metricsContainer_innerHTML (fst (handleProcess server page_hello)) = failed_view.
Proof.
  intros server res.
  assert (Hn : trim (textInput_value page_hello) <> "") by (vm_compute; discriminate).
  destruct (render_exception_gives_error_view server page_hello res no_metrics
              Hn eq_refl eq_refl eq_refl) as (Hall & Hmissing & _).
  destruct (Hmissing eq_refl) as (e & He).
  destruct (Hall e He) as (H1 & H2 & H3 & _).
  repeat split; assumption.
Defined.





Lemma metrics_rendered_witness :
  is_Metrics (metrics_value metrics_hello) metrics_hello /\
  renderMetrics (metrics_value metrics_hello) page_hello
    = set_metricsContainer_innerHTML
        (metrics_view "32.5" "0.81" "120" "95.67" "1.00") page_hello /\
  has_decimals 2 "95.67" /\ has_decimals 2 "1.00".
Proof.
  pose proof (metrics_rendered (metrics_value metrics_hello) metrics_hello page_hello
                (metrics_value_ok metrics_hello)) as H.
  cbv zeta in H. destruct H as (H1 & _ & _ & _ & _ & _ & H7 & H8 & _).
  split; [apply metrics_value_ok|]. split; [exact H1|].
  split; [apply H7 | apply H8]; reflexivity.
Defined.

End Witnesses.

(* ================================================================== *)
(** * More on the submit operation *)
(* ================================================================== *)

Section SubmitMore.

Import Phases.

Variable server : request -> completion response.

Ltac run_phases :=
  cbv beta iota zeta delta
    [handleProcess handleProcess_start handleProcess_fetched handleProcess_parsed
     settle catch_block user_types user_selects
     bind read try_catch fetch send lift throw ret
     renderResults renderMetrics set_resultsContainer_innerHTML
     set_metricsContainer_innerHTML console_error focus views_of cbind
     request_of error_views fst snd
     textInput_value targetLangSelect_value resultsContainer_innerHTML
     metricsContainer_innerHTML activeElement console network].

(** The handler is its three stretches one after the other. *)
Lemma handleProcess_phases (pg : page) :
  handleProcess server pg
  = match handleProcess_start pg with
    | (pg1, Normal true) => settle (server (request_of pg)) pg1
    | (pg1, _) => (pg1, Normal tt)
    end.
Proof.
  destruct pg as [tv lv rh0 mh0 ae cs nw]. run_phases.
  destruct (Str.is_empty (trim tv)); [reflexivity|].
  destruct (server _) as [res|e]; [|reflexivity].
  destruct (negb (ok res)); [reflexivity|].
  destruct (json res) as [data|e]; [|reflexivity].
  destruct (results_markup data) as [rh|e]; [|reflexivity].
  destruct (Get data "metrics") as [m|e]; [|reflexivity].
  destruct (metrics_markup m) as [mh|e]; reflexivity.
Qed.


(** X1. The handler never throws: whatever the page and whatever the
    backend does, the promise it returns is fulfilled. *)
Theorem handleProcess_never_throws (pg : page) :
  snd (handleProcess server pg) = Normal tt.
Proof.
  destruct (Str.is_empty (trim (textInput_value pg))) eqn:E.
  - apply is_empty_true in E. now rewrite (handleProcess_blank server pg E).
  - apply is_empty_false in E. apply (handleProcess_run server pg E).
Qed.

(** X2. The handler never changes the text field nor the selection;
    the focus moves, to the text field, only when the text is blank. *)
Theorem handleProcess_keeps_inputs (pg : page) :
  textInput_value (fst (handleProcess server pg)) = textInput_value pg /\
  targetLangSelect_value (fst (handleProcess server pg)) = targetLangSelect_value pg /\
  activeElement (fst (handleProcess server pg))
    = if Str.is_empty (trim (textInput_value pg)) then Some textInput
      else activeElement pg.
Proof.
  destruct (Str.is_empty (trim (textInput_value pg))) eqn:E.
  - apply is_empty_true in E. rewrite (handleProcess_blank server pg E).
    repeat split.
  - apply is_empty_false in E.
    destruct (handleProcess_run server pg E) as (_ & _ & H1 & H2 & H3 & _).
    repeat split; assumption.
Qed.

(** What a run on a text that is not blank ends with. *)
Lemma handleProcess_outcome (pg : page) :
  trim (textInput_value pg) <> "" ->
  (console (fst (handleProcess server pg)) = console pg /\
   exists data, success_views data (fst (handleProcess server pg)))
  \/
  (error_views (fst (handleProcess server pg)) /\
   exists e, console (fst (handleProcess server pg)) = (console pg ++ [e])%list).
Proof.
  intro E.
  destruct (handleProcess_run server pg E) as (_ & _ & _ & _ & _ & Hv).
  unfold views_of in Hv.
  destruct (server (request_of pg)) as [res|e]; simpl in Hv;
    [|right; split; [apply Hv | now exists e]].
  destruct (ok res); simpl in Hv;
    [|right; split; [apply Hv | eexists; apply Hv]].
  destruct (json res) as [data|e]; simpl in Hv;
    [|right; split; [apply Hv | now exists e]].
  destruct (results_markup data) as [rh|e] eqn:Hr; simpl in Hv;
    [|right; split; [apply Hv | now exists e]].
  destruct (Get data "metrics") as [m|e] eqn:Hg; simpl in Hv;
    [|right; split; [apply Hv | now exists e]].
  destruct (metrics_markup m) as [mh|e] eqn:Hm; simpl in Hv;
    [|right; split; [apply Hv | now exists e]].
  left. destruct Hv as (H1 & H2 & H3). split; [exact H3|].
  exists data. unfold success_views. rewrite H1, H2, Hr, Hg. simpl.
  rewrite Hm. now split.
Qed.

(** X3. A run on a text that is not blank ends in one of two ways,
    never both: with the two error views and one exception more in the
    console, or with a rendered answer and the console as it was.  So
    it logs an exception exactly when it ends with the error views. *)
Theorem handleProcess_logs_iff_error (pg : page) :
  trim (textInput_value pg) <> "" ->
  let pg' := fst (handleProcess server pg) in
  ((exists e, console pg' = (console pg ++ [e])%list) <-> error_views pg') /\
  (console pg' = console pg <-> exists data, success_views data pg') /\
  (error_views pg' \/ exists data, success_views data pg') /\
  ~ (error_views pg' /\ exists data, success_views data pg').
Proof.
  intros E pg'.
  assert (Hlen : forall e, console pg' = (console pg ++ [e])%list ->
                           console pg' = console pg -> False).
  { intros e H1 H2. rewrite H2 in H1. apply (f_equal (@List.length exn)) in H1.
    rewrite List.length_app in H1. simpl in H1. lia. }
  assert (Hex : forall data, success_views data pg' -> ~ error_views pg').
  { intros data H. apply (success_views_not_error data pg' H). }
  destruct (handleProcess_outcome pg E) as [(Hc & data & Hs) | (He & e & Hc)];
    fold pg' in Hc, Hs || fold pg' in Hc, He.
  - split; [split; [intros (e & H'); destruct (Hlen e H' Hc)
                   | intro H'; destruct (Hex data Hs H')]|].
    split; [split; [intros _; now exists data | intros _; exact Hc]|].
    split; [right; now exists data|].
    intros (H' & _). exact (Hex data Hs H').
  - split; [split; [intros _; exact He | intros _; now exists e]|].
    split; [split; [intro H'; destruct (Hlen e Hc H')
                   | intros (data & Hs); destruct (Hex data Hs He)]|].
    split; [now left|].
    intros (_ & data & Hs). exact (Hex data Hs He).
Qed.

(** The stretch of the handler before it suspends on [fetch]. *)
Lemma handleProcess_start_run (pg : page) :
  trim (textInput_value pg) <> "" ->
  snd (handleProcess_start pg) = Normal true /\
  resultsContainer_innerHTML (fst (handleProcess_start pg)) = loading_view /\
  metricsContainer_innerHTML (fst (handleProcess_start pg)) = calculating_view /\
  network (fst (handleProcess_start pg)) = (network pg ++ [request_of pg])%list /\
  console (fst (handleProcess_start pg)) = console pg /\
  textInput_value (fst (handleProcess_start pg)) = textInput_value pg /\
  targetLangSelect_value (fst (handleProcess_start pg)) = targetLangSelect_value pg /\
  activeElement (fst (handleProcess_start pg)) = activeElement pg /\
  handleProcess server pg
    = settle (server (request_of pg)) (fst (handleProcess_start pg)).
Proof.
  intro H. apply is_empty_false in H.
  rewrite handleProcess_phases.
  destruct pg as [tv lv rh0 mh0 ae cs nw].
  cbv beta iota delta [textInput_value] in H.
  unfold handleProcess_start, bind, read, ret, send, focus,
    set_resultsContainer_innerHTML, set_metricsContainer_innerHTML, request_of.
  cbn [textInput_value targetLangSelect_value resultsContainer_innerHTML
       metricsContainer_innerHTML activeElement console network fst snd].
  rewrite H.
  cbn [textInput_value targetLangSelect_value resultsContainer_innerHTML
       metricsContainer_innerHTML activeElement console network fst snd].
  repeat split.
Qed.

(** X4. While the request is in flight: when the handler suspends on
    [fetch], for a text that is not blank, the request has been sent,
    the results region shows the loading indicator, the metrics region
    shows the placeholder, and nothing else has changed; the run is this
    stretch followed by the two continuations. *)
Theorem handleProcess_in_flight (pg : page) :
  trim (textInput_value pg) <> "" ->
  snd (handleProcess_start pg) = Normal true /\
  resultsContainer_innerHTML (fst (handleProcess_start pg)) = loading_view /\
  metricsContainer_innerHTML (fst (handleProcess_start pg)) = calculating_view /\
  network (fst (handleProcess_start pg)) = (network pg ++ [request_of pg])%list /\
  console (fst (handleProcess_start pg)) = console pg /\
  textInput_value (fst (handleProcess_start pg)) = textInput_value pg /\
  targetLangSelect_value (fst (handleProcess_start pg)) = targetLangSelect_value pg /\
  activeElement (fst (handleProcess_start pg)) = activeElement pg /\
  handleProcess server pg
    = settle (server (request_of pg)) (fst (handleProcess_start pg)).
Proof. apply handleProcess_start_run. Qed.

End SubmitMore.

Section Overlap.

Import Phases.


(** X6. Nothing is remembered between submissions: submitting the same
    text a second time sends the same request again, and with the same
    response the two regions end as after the first time. *)
Theorem resubmission_sends_again
  (server : request -> completion response) (pg : page) :
  trim (textInput_value pg) <> "" ->
  let pg1 := fst (handleProcess server pg) in
  let pg2 := fst (handleProcess server pg1) in
  network pg2 = (network pg ++ [request_of pg; request_of pg])%list /\
  resultsContainer_innerHTML pg2 = resultsContainer_innerHTML pg1 /\
  metricsContainer_innerHTML pg2 = metricsContainer_innerHTML pg1.
Proof.
  intros H. cbv zeta.
  set (pg1 := fst (handleProcess server pg)).
  set (pg2 := fst (handleProcess server pg1)).
  destruct (handleProcess_run server pg H) as (_ & Hn1 & Ht1 & Hl1 & _ & Hv1).
  change (fst (handleProcess server pg)) with pg1 in Hn1, Ht1, Hl1, Hv1.
  assert (Hreq : request_of pg1 = request_of pg)
    by (unfold request_of; now rewrite Ht1, Hl1).
  assert (H1 : trim (textInput_value pg1) <> "") by (now rewrite Ht1).
  destruct (handleProcess_run server pg1 H1) as (_ & Hn2 & _ & _ & _ & Hv2).
  change (fst (handleProcess server pg1)) with pg2 in Hn2, Hv2.
  rewrite Hreq in Hn2, Hv2.
  split; [rewrite Hn2, Hn1; now rewrite <- List.app_assoc|].
  destruct (views_of (server (request_of pg))) as [[rh mh]|e].
  - destruct Hv1 as (A1 & A2 & _), Hv2 as (B1 & B2 & _). now rewrite A1, A2, B1, B2.
  - destruct Hv1 as ((A1 & A2) & _), Hv2 as ((B1 & B2) & _).
    now rewrite A1, A2, B1, B2.
Qed.

End Overlap.

(* ================================================================== *)
(** * Trimming *)
(* ================================================================== *)

Section Trimming.

Ltac split_ifs :=
  repeat match goal with
         | |- context [if ?b then _ else _] => destruct b
         end.

(** Stripping goes by the first characters only. *)
Lemma strip_ws1_append (p q r : string) :
  strip_ws1 p = Some r -> strip_ws1 (p ++ q) = Some (r ++ q).
Proof.
  destruct p as [|c1 [|c2 [|c3 p]]]; cbn [strip_ws1 append];
    split_ifs; intro H; try discriminate; injection H as <-; reflexivity.
Qed.

Lemma strip_ws1_shorter (s r : string) :
  strip_ws1 s = Some r -> (String.length r < String.length s)%nat.
Proof.
  destruct s as [|c1 [|c2 [|c3 s]]]; cbn [strip_ws1];
    split_ifs; intro H; try discriminate; injection H as <-; simpl; lia.
Qed.

Lemma strip_ws1_suffix (s r : string) :
  strip_ws1 s = Some r -> exists w, s = w ++ r.
Proof.
  destruct s as [|c1 [|c2 [|c3 s]]]; cbn [strip_ws1];
    split_ifs; intro H; try discriminate; injection H as <-;
    first [ now exists (String c1 "")
          | now exists (String c1 (String c2 ""))
          | now exists (String c1 (String c2 (String c3 ""))) ].
Qed.

Lemma trimStart_fuel_enough (n m : nat) (s : string) :
  (String.length s <= n)%nat -> (String.length s <= m)%nat ->
  trimStart_fuel n s = trimStart_fuel m s.
Proof.
  revert m s; induction n as [|n IH]; intros m s Hn Hm.
  - destruct s; [|simpl in Hn; lia]. destruct m; reflexivity.
  - destruct m as [|m].
    + destruct s; [reflexivity | simpl in Hm; lia].
    + cbn [trimStart_fuel]. destruct (strip_ws1 s) as [r|] eqn:E; [|reflexivity].
      apply strip_ws1_shorter in E. apply IH; lia.
Qed.

Lemma trimStart_step (s : string) :
  trimStart s = match strip_ws1 s with
                | Some r => trimStart r
                | None => s
                end.
Proof.
  unfold trimStart. destruct s as [|c s]; [reflexivity|].
  cbn [String.length trimStart_fuel].
  destruct (strip_ws1 (String c s)) as [r|] eqn:E; [|reflexivity].
  apply strip_ws1_shorter in E. simpl in E. apply trimStart_fuel_enough; lia.
Qed.

Lemma trimStart_suffix (s : string) : exists pre, s = pre ++ trimStart s.
Proof.
  remember (String.length s) as n eqn:Hn. revert s Hn.
  induction n as [n IH] using lt_wf_ind. intros s Hn.
  rewrite trimStart_step. destruct (strip_ws1 s) as [r|] eqn:E.
  - destruct (strip_ws1_suffix s r E) as (w & ->).
    apply strip_ws1_shorter in E.
    destruct (IH (String.length r) ltac:(lia) r eq_refl) as (pre & Hpre).
    exists (w ++ pre). rewrite append_assoc. now rewrite <- Hpre.
  - now exists "".
Qed.

Lemma trimStart_stripped (s : string) : strip_ws1 (trimStart s) = None.
Proof.
  remember (String.length s) as n eqn:Hn. revert s Hn.
  induction n as [n IH] using lt_wf_ind. intros s Hn.
  rewrite trimStart_step. destruct (strip_ws1 s) as [r|] eqn:E; [|exact E].
  apply strip_ws1_shorter in E. apply (IH (String.length r)); [lia | reflexivity].
Qed.

Lemma all_ws_step (s : string) :
  all_ws s = match strip_ws1 s with
             | Some r => all_ws r
             | None => Str.is_empty s
             end.
Proof. unfold all_ws. rewrite trimStart_step. now destruct (strip_ws1 s). Qed.

Lemma all_ws_append (a b : string) :
  all_ws a = true -> all_ws b = true -> all_ws (a ++ b) = true.
Proof.
  remember (String.length a) as n eqn:Hn. revert a Hn.
  induction n as [n IH] using lt_wf_ind. intros a Hn Ha Hb.
  rewrite all_ws_step in Ha. destruct (strip_ws1 a) as [r|] eqn:E.
  - rewrite all_ws_step, (strip_ws1_append a b r E).
    apply strip_ws1_shorter in E. apply (IH (String.length r)); auto; lia.
  - apply is_empty_true in Ha. now subst a.
Qed.

Lemma trimEnd_split (t : string) :
  exists post, t = trimEnd t ++ post /\ all_ws post = true.
Proof.
  induction t as [|c t (post & Ht & Hp)]; [now exists ""|].
  cbn [trimEnd]. destruct (all_ws (String c t)) eqn:E.
  - now exists (String c t).
  - exists post. split; [|exact Hp]. simpl. now rewrite <- Ht.
Qed.

Lemma trimEnd_no_ws_suffix (t a w : string) :
  trimEnd t = a ++ w -> w <> "" -> all_ws w = false.
Proof.
  revert a; induction t as [|c t IH]; intros a H Hw.
  - destruct a, w; simpl in H; try discriminate. congruence.
  - cbn [trimEnd] in H. destruct (all_ws (String c t)) eqn:E.
    + destruct a, w; simpl in H; try discriminate. congruence.
    + destruct a as [|x a]; simpl in H.
      * destruct (all_ws w) eqn:Ew; [|reflexivity].
        destruct (trimEnd_split t) as (post & Ht & Hp).
        assert (Hall : all_ws (w ++ post) = true) by now apply all_ws_append.
        rewrite <- H in Hall. simpl in Hall. rewrite <- Ht in Hall. congruence.
      * injection H as _ H. now apply (IH a).
Qed.

(** The trimmed text is a part of the text, begins with no white space
    and ends with none. *)
Lemma trim_spec (s : string) :
  Str.contains s (trim s) /\
  strip_ws1 (trim s) = None /\
  (forall a w, trim s = a ++ w -> w <> "" -> all_ws w = false).
Proof.
  unfold trim. destruct (trimStart_suffix s) as (pre & Hpre).
  destruct (trimEnd_split (trimStart s)) as (post & Hpost & _).
  split; [|split].
  - exists pre, post. now rewrite <- Hpost.
  - destruct (strip_ws1 (trimEnd (trimStart s))) as [r|] eqn:E; [|reflexivity].
    apply (strip_ws1_append _ post) in E. rewrite <- Hpost in E.
    now rewrite trimStart_stripped in E.
  - apply trimEnd_no_ws_suffix.
Qed.

(** X7. The text that a submission sends is a contiguous part of the
    text typed, as it stands there; it begins with no white space and
    ends with none. *)
Theorem sent_text_is_trimmed
  (server : request -> completion response) (pg : page) :
  trim (textInput_value pg) <> "" ->
  exists text,
    network (fst (handleProcess server pg))
      = (network pg ++ [process_request text (targetLangSelect_value pg)])%list /\
    text <> "" /\
    Str.contains (textInput_value pg) text /\
    strip_ws1 text = None /\
    (forall a w, text = a ++ w -> w <> "" -> all_ws w = false).
Proof.
  intro H. exists (trim (textInput_value pg)).
  destruct (handleProcess_run server pg H) as (_ & Hn & _).
  split; [exact Hn|]. split; [exact H|]. apply trim_spec.
Qed.

End Trimming.

(* ================================================================== *)
(** * Which answers render: the conversions *)
(* ================================================================== *)

Section Conversions.

Import Shape.

(** Induction on values that goes into arrays. *)
Lemma value_array_ind (P : value -> Prop) :
  P JUndefined -> P JNull -> (forall b, P (JBool b)) -> (forall x, P (JNum x)) ->
  (forall s, P (JStr s)) ->
  (forall items, Forall P items -> P (JArr items)) ->
  (forall fields, P (JObj fields)) ->
  forall v, P v.
Proof.
  intros Hu Hn Hb Hx Hs Ha Ho.
  fix IH 1. intros [| |b|x|s|items|fields];
    [exact Hu | exact Hn | apply Hb | apply Hx | apply Hs | | apply Ho].
  apply Ha. induction items as [|e items IHitems]; constructor; [apply IH | exact IHitems].
Qed.

Lemma Get_prop (v : value) (key : string) :
  Get v key
  = if nullish v
    then Throw (TypeError ("Cannot read properties of null or undefined (reading '"
                           ++ key ++ "')"))
    else Normal (prop v key).
Proof. destruct v; reflexivity. Qed.

Lemma ToString_array (items : list value) :
  ToString (JArr items)
  = cbind (ToString_elements items) (fun ss => Normal (String.concat "," ss)).
Proof. reflexivity. Qed.

Lemma stringable_array (items : list value) :
  stringable (JArr items) = List.forallb stringable items.
Proof. reflexivity. Qed.

(** [ToString] throws exactly on the values that are not [stringable]. *)
Lemma ToString_cases (v : value) :
  match ToString v with
  | Normal _ => stringable v = true
  | Throw _ => stringable v = false
  end.
Proof.
  induction v as [| |b|x|s|items IH|fields] using value_array_ind;
    try reflexivity.
  - rewrite ToString_array, stringable_array.
    assert (H : match ToString_elements items with
                | Normal _ => List.forallb stringable items = true
                | Throw _ => List.forallb stringable items = false
                end).
    { induction IH as [|e r He _ IHr]; [reflexivity|].
      cbn [ToString_elements List.forallb].
      assert (Hel : match (match e with
                           | JUndefined | JNull => Normal ""
                           | _ => ToString e
                           end) with
                    | Normal _ => stringable e = true
                    | Throw _ => stringable e = false
                    end)
        by (destruct e; try reflexivity; exact He).
      destruct (match e with
                | JUndefined | JNull => Normal ""
                | _ => ToString e
                end); cbn [cbind]; rewrite Hel; [|reflexivity].
      destruct (ToString_elements r); cbn [cbind]; exact IHr. }
    destruct (ToString_elements items); cbn [cbind]; exact H.
  - cbn [ToString stringable]. now destruct (has_own "toString" fields).
Qed.

Lemma ToNumber_cases (v : value) :
  match ToNumber v with
  | Normal _ => stringable v = true
  | Throw _ => stringable v = false
  end.
Proof.
  destruct v as [| |b|x|s|items|fields]; try reflexivity; unfold ToNumber;
    match goal with
    | |- context [ToString ?w] =>
        pose proof (ToString_cases w) as H; destruct (ToString w)
    end; exact H.
Qed.

Lemma percent_cases (v : value) :
  match percent v with
  | Normal _ => stringable v = true
  | Throw _ => stringable v = false
  end.
Proof.
  unfold percent, times. pose proof (ToNumber_cases v) as H.
  destruct (ToNumber v); exact H.
Qed.


End Conversions.

(* ================================================================== *)
(** * Which answers render: the two rendering functions *)
(* ================================================================== *)

Section WhichRender.

Import Shape.





Lemma metrics_markup_slots (m : value) :
  nullish m = false ->
  metrics_markup m
  = cbind (ToString (prop m "bleu")) (fun bleu =>
    cbind (ToString (prop m "comet")) (fun comet =>
    cbind (ToString (prop m "latency_ms")) (fun latency =>
    cbind (percent (prop m "named_entity_preservation")) (fun nep =>
    cbind (percent (prop m "toxicity_leakage")) (fun tox =>
    Normal (metrics_view bleu comet latency nep tox)))))).
Proof.
  intro Hm. unfold metrics_markup. rewrite !Get_prop, Hm. reflexivity.
Qed.



Lemma metrics_markup_cases (m : value) :
  match metrics_markup m with
  | Normal _ => metrics_render m = true
  | Throw _ => metrics_render m = false
  end.
Proof.
  destruct (nullish m) eqn:Hm.
  - destruct m; try discriminate; reflexivity.
  - rewrite (metrics_markup_slots m Hm). unfold metrics_render. rewrite Hm.
    cbn [negb andb].
    pose proof (ToString_cases (prop m "bleu")) as H1.
    destruct (ToString (prop m "bleu")); cbn [cbind]; rewrite H1; [|reflexivity].
    pose proof (ToString_cases (prop m "comet")) as H2.
    destruct (ToString (prop m "comet")); cbn [cbind]; rewrite H2; [|reflexivity].
    pose proof (ToString_cases (prop m "latency_ms")) as H3.
    destruct (ToString (prop m "latency_ms")); cbn [cbind]; rewrite H3; [|reflexivity].
    pose proof (percent_cases (prop m "named_entity_preservation")) as H4.
    destruct (percent (prop m "named_entity_preservation")); cbn [cbind]; rewrite H4;
      [|reflexivity].
    pose proof (percent_cases (prop m "toxicity_leakage")) as H5.
    destruct (percent (prop m "toxicity_leakage")); cbn [cbind]; rewrite H5;
      reflexivity.
Qed.


(** X9. [renderMetrics] gets through a metrics value exactly when the
    value is neither [null] nor [undefined] and none of its five fields
    is, or holds in an array, an object with a [toString] property of
    its own.  Then it assigns the metrics region; otherwise it throws
    and leaves the page as it was. *)
Theorem renderMetrics_gets_through (m : value) (pg : page) :
  if metrics_render m
  then exists h, renderMetrics m pg = set_metricsContainer_innerHTML h pg
  else exists e, renderMetrics m pg = (pg, Throw e).
Proof.
  pose proof (metrics_markup_cases m) as H.
  destruct (metrics_markup m) as [h|e] eqn:E; rewrite H.
  - exists h. now apply renderMetrics_assigns.
  - exists e. now apply renderMetrics_throws.
Qed.


End WhichRender.

(* ================================================================== *)
(** * Fields that are missing or of another type *)
(* ================================================================== *)

Section Fields.

Import Shape.





(** X14. A metrics object with fields missing still renders: in the
    assigned markup a missing BLEU, COMET or latency shows the word
    undefined under its label, a missing fraction shows NaN before the
    percent sign, and a fraction that is [null] shows 0.00. *)
Theorem missing_metrics_fields (m : value) (pg : page) :
  metrics_render m = true ->
  exists html,
    renderMetrics m pg = set_metricsContainer_innerHTML html pg /\
    (prop m "bleu" = JUndefined ->
     Str.contains html (tpl "BLEU</p>
        <p class=`text-lg font-bold text-slate-800`>undefined</p>")) /\
    (prop m "comet" = JUndefined ->
     Str.contains html (tpl "COMET</p>
        <p class=`text-lg font-bold text-slate-800`>undefined</p>")) /\
    (prop m "latency_ms" = JUndefined ->
     Str.contains html (tpl "Latency</p>
        <p class=`text-lg font-bold text-slate-800`>undefined ms</p>")) /\
    (prop m "named_entity_preservation" = JUndefined ->
     Str.contains html (tpl "NE Preservation</p>
        <p class=`text-lg font-bold text-slate-800`>NaN%</p>")) /\
    (prop m "toxicity_leakage" = JUndefined ->
     Str.contains html (tpl "Toxicity Leakage</p>
        <p class=`text-lg font-bold text-slate-800`>NaN%</p>")) /\
    (prop m "named_entity_preservation" = JNull ->
     Str.contains html (tpl "NE Preservation</p>
        <p class=`text-lg font-bold text-slate-800`>0.00%</p>")) /\
    (prop m "toxicity_leakage" = JNull ->
     Str.contains html (tpl "Toxicity Leakage</p>
        <p class=`text-lg font-bold text-slate-800`>0.00%</p>")).
Proof.
  intro Hr.
  assert (Hm : nullish m = false).
  { unfold metrics_render in Hr. destruct (nullish m); [discriminate | reflexivity]. }
  pose proof (metrics_markup_cases m) as Hc.
  assert (Hs := metrics_markup_slots m Hm).
  destruct (ToString (prop m "bleu")) as [s1|e] eqn:E1; cbn [cbind] in Hs;
    [|rewrite Hs in Hc; congruence].
  destruct (ToString (prop m "comet")) as [s2|e] eqn:E2; cbn [cbind] in Hs;
    [|rewrite Hs in Hc; congruence].
  destruct (ToString (prop m "latency_ms")) as [s3|e] eqn:E3; cbn [cbind] in Hs;
    [|rewrite Hs in Hc; congruence].
  destruct (percent (prop m "named_entity_preservation")) as [s4|e] eqn:E4;
    cbn [cbind] in Hs; [|rewrite Hs in Hc; congruence].
  destruct (percent (prop m "toxicity_leakage")) as [s5|e] eqn:E5;
    cbn [cbind] in Hs; [|rewrite Hs in Hc; congruence].
  exists (metrics_view s1 s2 s3 s4 s5). split; [now apply renderMetrics_assigns|].
  clear Hc Hs.
  destruct (metrics_view_shows s1 s2 s3 s4 s5) as (S1 & S2 & S3 & S4 & S5).
  repeat split; intro E;
    first [ rewrite E in E1; cbn [ToString] in E1; injection E1 as <-; exact S1
          | rewrite E in E2; cbn [ToString] in E2; injection E2 as <-; exact S2
          | rewrite E in E3; cbn [ToString] in E3; injection E3 as <-; exact S3
          | rewrite E in E4; vm_compute in E4; injection E4 as <-; exact S4
          | rewrite E in E5; vm_compute in E5; injection E5 as <-; exact S5 ].
Qed.

End Fields.

(* ================================================================== *)
(** * The other handlers *)
(* ================================================================== *)

Section Handlers.

Import App.

Lemma contains_add (t : string) (l : list string) :
  classList_contains t (classList_add t l) = true.
Proof.
  unfold classList_add. destruct (classList_contains t l) eqn:E; [exact E|].
  unfold classList_contains. rewrite List.existsb_app. cbn.
  now rewrite String.eqb_refl, orb_true_r.
Qed.

Lemma contains_remove (t : string) (l : list string) :
  classList_contains t (classList_remove t l) = false.
Proof.
  unfold classList_contains, classList_remove.
  induction l as [|x l IH]; [reflexivity|]. cbn.
  destruct (String.eqb t x) eqn:E; cbn; [exact IH | now rewrite E].
Qed.

Lemma remove_add (t : string) (l : list string) :
  classList_remove t (classList_add t l) = classList_remove t l.
Proof.
  unfold classList_add. destruct (classList_contains t l); [reflexivity|].
  unfold classList_remove. rewrite List.filter_app. cbn.
  now rewrite String.eqb_refl, List.app_nil_r.
Qed.

Lemma remove_remove (t : string) (l : list string) :
  classList_remove t (classList_remove t l) = classList_remove t l.
Proof.
  unfold classList_remove. induction l as [|x l IH]; [reflexivity|]. cbn.
  destruct (String.eqb t x) eqn:E; cbn; [exact IH | now rewrite E, IH].
Qed.

Lemma remove_toggle (t : string) (force : bool) (l : list string) :
  classList_remove t (classList_toggle t force l) = classList_remove t l.
Proof. destruct force; [apply remove_add | apply remove_remove]. Qed.

Lemma contains_toggle (t : string) (force : bool) (l : list string) :
  classList_contains t (classList_toggle t force l) = force.
Proof. destruct force; [apply contains_add | apply contains_remove]. Qed.

Lemma NoDup_add (t : string) (l : list string) :
  NoDup l -> NoDup (classList_add t l).
Proof.
  intro H. unfold classList_add. destruct (classList_contains t l) eqn:E; [exact H|].
  apply List.NoDup_app; [exact H | repeat constructor; intros [] |].
  intros x Hx [Ht | []]. subst x.
  assert (classList_contains t l = true); [|congruence].
  unfold classList_contains. apply List.existsb_exists. exists t.
  split; [exact Hx | apply String.eqb_refl].
Qed.

Lemma NoDup_remove (t : string) (l : list string) :
  NoDup l -> NoDup (classList_remove t l).
Proof. apply List.NoDup_filter. Qed.

Lemma run_app (a b : list event) (doc : document) :
  run (a ++ b) doc = run b (run a doc).
Proof. revert doc; induction a as [|ev a IH]; intro doc; [reflexivity | apply IH]. Qed.

(** The text field after an event. *)
Lemma text_after (ev : event) (doc : document) :
  textInput_value (page_of (dispatch ev doc))
  = match ev with
    | input v => v
    | clear_click => ""
    | _ => textInput_value (page_of doc)
    end.
Proof.
  destruct ev as [|v|v| |server|cx cy rect|]; try reflexivity.
  - unfold dispatch, on_DOMContentLoaded, setup3DTilt.
    destruct (tiltCard (loadLanguages doc)); reflexivity.
  - cbn [dispatch on_process_click with_page page_of].
    destruct (Str.is_empty (trim (textInput_value (page_of doc)))) eqn:E.
    + apply is_empty_true in E. now rewrite (handleProcess_blank server _ E).
    + apply is_empty_false in E. apply (handleProcess_run server _ E).
  - cbn. unfold on_mousemove. destruct (tilt_listeners doc); reflexivity.
  - cbn. unfold on_mouseleave. destruct (tilt_listeners doc); reflexivity.
Qed.

(** The class list of the clear button after an event. *)
Lemma classList_after (ev : event) (doc : document) :
  clearBtn_classList (dispatch ev doc)
  = match ev with
    | DOMContentLoaded | clear_click =>
        classList_add "hidden" (clearBtn_classList doc)
    | input v => classList_toggle "hidden" (Str.is_empty v) (clearBtn_classList doc)
    | _ => clearBtn_classList doc
    end.
Proof.
  destruct ev as [|v|v| |server|cx cy rect|]; try reflexivity.
  - unfold dispatch, on_DOMContentLoaded, setup3DTilt.
    destruct (tiltCard (loadLanguages doc)); reflexivity.
  - cbn. unfold on_mousemove. destruct (tilt_listeners doc); reflexivity.
  - cbn. unfold on_mouseleave. destruct (tilt_listeners doc); reflexivity.
Qed.

Lemma edit_establishes (ev : event) (doc : document) :
  is_edit ev = true -> clear_button_tracks_text (dispatch ev doc).
Proof.
  intro H. unfold clear_button_tracks_text.
  rewrite text_after, classList_after.
  destruct ev as [|v|v| |server|cx cy rect|]; try discriminate.
  - rewrite contains_toggle. apply is_empty_true.
  - rewrite contains_add. split; reflexivity.
Qed.

Lemma other_preserves (ev : event) (doc : document) :
  is_load ev = false ->
  clear_button_tracks_text doc -> clear_button_tracks_text (dispatch ev doc).
Proof.
  intros Hl Hinv. destruct (is_edit ev) eqn:He; [now apply edit_establishes|].
  unfold clear_button_tracks_text in *. rewrite text_after, classList_after.
  destruct ev; try discriminate; exact Hinv.
Qed.

Lemma run_preserves (events : list event) (doc : document) :
  List.forallb (fun ev => negb (is_load ev)) events = true ->
  clear_button_tracks_text doc -> clear_button_tracks_text (run events doc).
Proof.
  revert doc; induction events as [|ev events IH]; intros doc Hl Hinv; [exact Hinv|].
  cbn in Hl. apply andb_prop in Hl as [H1 H2]. apply IH; [exact H2|].
  apply other_preserves; [now destruct (is_load ev) | exact Hinv].
Qed.

(** X16. The clear button follows the text: once the text has been
    edited or cleared, and as long as the page is not loaded again, the
    button is hidden exactly when the text field is empty, whatever
    else happens (submissions, choices of language, pointer moves).
    The load handler itself hides the button without looking at the
    text. *)
Theorem clear_button_follows_text
  (before after : list event) (ev : event) (doc : document) :
  is_edit ev = true ->
  List.forallb (fun e => negb (is_load e)) after = true ->
  clear_button_tracks_text (run (before ++ ev :: after) doc) /\
  classList_contains "hidden"
    (clearBtn_classList
       (dispatch DOMContentLoaded (run (before ++ ev :: after) doc))) = true.
Proof.
  intros He Ha. split.
  - rewrite run_app. cbn [run]. apply run_preserves; [exact Ha|].
    now apply edit_establishes.
  - rewrite classList_after. apply contains_add.
Qed.

(** X17. The handlers touch no class of the clear button but hidden:
    after any events the other classes are those it had, in the same
    order, and no class is listed twice if none was. *)
Theorem other_classes_kept (events : list event) (doc : document) :
  classList_remove "hidden" (clearBtn_classList (run events doc))
    = classList_remove "hidden" (clearBtn_classList doc) /\
  (NoDup (clearBtn_classList doc) -> NoDup (clearBtn_classList (run events doc))).
Proof.
  revert doc; induction events as [|ev events IH]; intro doc; [now split|].
  cbn [run]. destruct (IH (dispatch ev doc)) as (H1 & H2).
  rewrite H1. rewrite classList_after in *.
  destruct ev as [|v|v| |server|cx cy rect|];
    rewrite ?remove_add, ?remove_toggle; (split; [reflexivity|]);
    intro Hn; apply H2; try exact Hn;
    first [ now apply NoDup_add
          | destruct (Str.is_empty v); [now apply NoDup_add | now apply NoDup_remove] ].
Qed.

(** The requests after an event. *)
Lemma network_after (ev : event) (doc : document) :
  exists sent,
    network (page_of (dispatch ev doc)) = (network (page_of doc) ++ sent)%list /\
    List.length sent = submissions [ev] doc.
Proof.
  destruct ev as [|v|v| |server|cx cy rect|];
    try (exists []; rewrite List.app_nil_r; repeat split; fail).
  - exists []. rewrite List.app_nil_r. cbn.
    unfold on_DOMContentLoaded, setup3DTilt.
    destruct (tiltCard (loadLanguages doc)); repeat split.
  - cbn [submissions dispatch on_process_click with_page page_of].
    destruct (Str.is_empty (trim (textInput_value (page_of doc)))) eqn:E.
    + apply is_empty_true in E. exists [].
      rewrite (handleProcess_blank server _ E), List.app_nil_r. repeat split.
    + apply is_empty_false in E. exists [request_of (page_of doc)].
      destruct (handleProcess_run server _ E) as (_ & Hn & _).
      repeat split. exact Hn.
  - exists []. rewrite List.app_nil_r. cbn. unfold on_mousemove.
    destruct (tilt_listeners doc); repeat split.
  - exists []. rewrite List.app_nil_r. cbn. unfold on_mouseleave.
    destruct (tilt_listeners doc); repeat split.
Qed.

Lemma submissions_cons (ev : event) (events : list event) (doc : document) :
  submissions (ev :: events) doc
  = (submissions [ev] doc + submissions events (dispatch ev doc))%nat.
Proof. cbn [submissions]. lia. Qed.

(** X18. Requests go out on clicks of the process button with a text
    that is not blank, one for each, and on nothing else: after any
    events the requests sent before are still first in the log, and the
    new ones are as many as there were such clicks. *)
Theorem requests_count_submissions (events : list event) (doc : document) :
  exists sent,
    network (page_of (run events doc)) = (network (page_of doc) ++ sent)%list /\
    List.length sent = submissions events doc.
Proof.
  revert doc; induction events as [|ev events IH]; intro doc.
  - exists []. now rewrite List.app_nil_r.
  - cbn [run]. destruct (IH (dispatch ev doc)) as (s2 & H2 & L2).
    destruct (network_after ev doc) as (s1 & H1 & L1).
    exists (s1 ++ s2)%list. split.
    + now rewrite H2, H1, List.app_assoc.
    + rewrite submissions_cons, List.length_app. lia.
Qed.

(** An event other than typing, on a blank text. *)
Lemma blank_step (ev : event) (doc : document) :
  trim (textInput_value (page_of doc)) = "" ->
  is_input ev = false ->
  network (page_of (dispatch ev doc)) = network (page_of doc) /\
  resultsContainer_innerHTML (page_of (dispatch ev doc))
    = resultsContainer_innerHTML (page_of doc) /\
  metricsContainer_innerHTML (page_of (dispatch ev doc))
    = metricsContainer_innerHTML (page_of doc) /\
  console (page_of (dispatch ev doc)) = console (page_of doc) /\
  trim (textInput_value (page_of (dispatch ev doc))) = "".
Proof.
  intros Hb Hi.
  destruct ev as [|v|v| |server|cx cy rect|]; try discriminate.
  - unfold dispatch, on_DOMContentLoaded, setup3DTilt.
    destruct (tiltCard (loadLanguages doc)); repeat split; exact Hb.
  - repeat split; exact Hb.
  - repeat split.
  - cbn [dispatch on_process_click with_page page_of].
    rewrite (handleProcess_blank server _ Hb). repeat split; exact Hb.
  - cbn. unfold on_mousemove. destruct (tilt_listeners doc); repeat split; exact Hb.
  - cbn. unfold on_mouseleave. destruct (tilt_listeners doc); repeat split; exact Hb.
Qed.

(** X19. While the text is blank nothing is sent and nothing is shown:
    from a blank text field, for instance after the clear button, and
    until the user types, no events (clicks of the process button, a new
    load, choices of language, pointer moves) send a request, change the
    results or the metrics region or log anything. *)
Theorem blank_text_sends_nothing (events : list event) (doc : document) :
  trim (textInput_value (page_of doc)) = "" ->
  List.forallb (fun ev => negb (is_input ev)) events = true ->
  network (page_of (run events doc)) = network (page_of doc) /\
  resultsContainer_innerHTML (page_of (run events doc))
    = resultsContainer_innerHTML (page_of doc) /\
  metricsContainer_innerHTML (page_of (run events doc))
    = metricsContainer_innerHTML (page_of doc) /\
  console (page_of (run events doc)) = console (page_of doc) /\
  trim (textInput_value (page_of (run events doc))) = "".
Proof.
  revert doc; induction events as [|ev events IH]; intros doc Hb He;
    [repeat split; exact Hb|].
  cbn in He. apply andb_prop in He as [H1 H2].
  assert (Hi : is_input ev = false) by (now destruct (is_input ev)).
  destruct (blank_step ev doc Hb Hi) as (A1 & A2 & A3 & A4 & A5).
  destruct (IH (dispatch ev doc) A5 H2) as (B1 & B2 & B3 & B4 & B5).
  cbn [run]. rewrite B1, B2, B3, B4, A1, A2, A3, A4. repeat split. exact B5.
Qed.



End Handlers.

(* ================================================================== *)
(** * The further properties on the sample data *)
(* ================================================================== *)

Section MoreWitnesses.

Import Sample Visit Phases Shape App.

Lemma handleProcess_logs_iff_error_witness :
  (trim (textInput_value page_hello) <> "") /\
  (let pg' := fst (handleProcess server_500 page_hello) in
  ((exists e, console pg' = (console page_hello ++ [e])%list) <-> error_views pg') /\
  (console pg' = console page_hello <-> exists data, success_views data pg') /\
  (error_views pg' \/ exists data, success_views data pg') /\
  ~ (error_views pg' /\ exists data, success_views data pg')).
Proof.
  assert (W0 : trim (textInput_value page_hello) <> "") by (vm_compute; discriminate).
  split; [exact W0|].
  exact (handleProcess_logs_iff_error server_500 page_hello W0).
Defined.

Lemma handleProcess_in_flight_witness :
  trim (textInput_value page_hello) <> "" /\
  resultsContainer_innerHTML (fst (handleProcess_start page_hello)) = loading_view /\
  metricsContainer_innerHTML (fst (handleProcess_start page_hello)) = calculating_view /\
  network (fst (handleProcess_start page_hello)) = [request_of page_hello] /\
  handleProcess server_ok page_hello
    = settle (server_ok (request_of page_hello)) (fst (handleProcess_start page_hello)).
Proof.
  assert (Hn : trim (textInput_value page_hello) <> "") by (vm_compute; discriminate).
  destruct (handleProcess_in_flight server_ok page_hello Hn)
    as (_ & H1 & H2 & H3 & _ & _ & _ & _ & H4).
  repeat split; assumption.
Defined.


Lemma resubmission_sends_again_witness :
  let pg1 := fst (handleProcess server_ok page_hello) in
  let pg2 := fst (handleProcess server_ok pg1) in
  trim (textInput_value page_hello) <> "" /\
  network pg2 = [request_of page_hello; request_of page_hello] /\
  resultsContainer_innerHTML pg2 = resultsContainer_innerHTML pg1 /\
  metricsContainer_innerHTML pg2 = metricsContainer_innerHTML pg1.
Proof.
  intros pg1 pg2.
  assert (H1 : trim (textInput_value page_hello) <> "") by (vm_compute; discriminate).
  split; [exact H1|].
  exact (resubmission_sends_again server_ok page_hello H1).
Defined.

Lemma sent_text_is_trimmed_witness :
  trim (textInput_value page_hello) <> "" /\
  exists text,
    network (fst (handleProcess server_ok page_hello))
      = (network page_hello
           ++ [process_request text (targetLangSelect_value page_hello)])%list /\
    text <> "" /\
    Str.contains (textInput_value page_hello) text /\
    strip_ws1 text = None /\
    (forall a w, text = a ++ w -> w <> "" -> all_ws w = false).
Proof.
  assert (H1 : trim (textInput_value page_hello) <> "") by (vm_compute; discriminate).
  split; [exact H1|].
  exact (sent_text_is_trimmed server_ok page_hello H1).
Defined.





Lemma missing_metrics_fields_witness :
  metrics_render sparse_metrics = true /\
  exists html,
    renderMetrics sparse_metrics page_hello
      = set_metricsContainer_innerHTML html page_hello /\
    Str.contains html (tpl "COMET</p>
        <p class=`text-lg font-bold text-slate-800`>undefined</p>") /\
    Str.contains html (tpl "Latency</p>
        <p class=`text-lg font-bold text-slate-800`>undefined ms</p>") /\
    Str.contains html (tpl "NE Preservation</p>
        <p class=`text-lg font-bold text-slate-800`>NaN%</p>") /\
    Str.contains html (tpl "Toxicity Leakage</p>
        <p class=`text-lg font-bold text-slate-800`>0.00%</p>").
Proof.
  assert (H1 : metrics_render sparse_metrics = true) by (vm_compute; reflexivity).
  split; [exact H1|].
  destruct (missing_metrics_fields sparse_metrics page_hello H1)
    as (html & Ha & _ & Hc & Hl & Hn & _ & _ & Ht).
  exists html. split; [exact Ha|].
  split; [exact (Hc eq_refl)|]. split; [exact (Hl eq_refl)|].
  split; [exact (Hn eq_refl) | exact (Ht eq_refl)].
Defined.

Lemma clear_button_follows_text_witness :
  let before := [DOMContentLoaded] in
  let after := [process_click server_ok; mouseleave; choose_language "hi"] in
  is_edit (input "namaste") = true /\
  List.forallb (fun e => negb (is_load e)) after = true /\
  clear_button_tracks_text (run (before ++ input "namaste" :: after) doc_hello) /\
  classList_contains "hidden"
    (clearBtn_classList (run (before ++ input "namaste" :: after) doc_hello)) = false.
Proof.
  intros before after.
  destruct (clear_button_follows_text before after (input "namaste") doc_hello
              eq_refl eq_refl) as (H & _).
  repeat split; solve [reflexivity | apply H].
Defined.

Lemma blank_text_sends_nothing_witness :
  let doc := dispatch clear_click doc_hello in
  let events := [process_click server_ok; DOMContentLoaded; process_click server_down] in
  trim (textInput_value (page_of doc)) = "" /\
  List.forallb (fun ev => negb (is_input ev)) events = true /\
  network (page_of (run events doc)) = network (page_of doc) /\
  resultsContainer_innerHTML (page_of (run events doc))
    = resultsContainer_innerHTML (page_of doc) /\
  metricsContainer_innerHTML (page_of (run events doc))
    = metricsContainer_innerHTML (page_of doc) /\
  console (page_of (run events doc)) = console (page_of doc) /\
  trim (textInput_value (page_of (run events doc))) = "".
Proof.
  intros doc events. split; [reflexivity|]. split; [reflexivity|].
  exact (blank_text_sends_nothing events doc eq_refl eq_refl).
Defined.


End MoreWitnesses.
